(** * GitMan: the git action dispatcher and the device-flow authenticator

    A shallow embedding of [gitService.ts], [authService.ts] and the
    dispatching part of [SidebarProvider.ts].

    - JavaScript strings are [string]s of code units below 256.
    - [async] methods are computations in a state-and-exception monad [M]
      over a [World]: the commands handed to [cp.exec], the notifications
      sent to the editor and to the webview, and the provider's fields.
    - Everything outside the program (the [git] child process, the secret
      store's availability, the HTTP endpoints) is an oracle in [Env]. *)

From Stdlib Require Import String Ascii List ZArith Bool Lia.
From Stdlib Require Import DecimalString.
Import ListNotations.

Open Scope string_scope.
Open Scope bool_scope.

(** ** JavaScript string primitives used by the sources *)

Module Js.

(** The double quote character, code unit 34. *)
Definition dquote : ascii := "034"%char.
Definition LF : ascii := "010"%char.
Definition CR : ascii := "013"%char.

(** [ToBoolean] on a string: only the empty string is falsy. *)
Definition truthy (s : string) : bool :=
  match s with
  | EmptyString => false
  | String _ _ => true
  end.

(** [ToBoolean] on a value that is a string or [undefined]. *)
Definition truthy_opt (o : option string) : bool :=
  match o with
  | Some s => truthy s
  | None => false
  end.

(** [a || b] on string-or-undefined values. *)
Definition or_else (a b : option string) : option string :=
  if truthy_opt a then a else b.

(** White space and line terminators, as matched by [\s] and removed by
    [trim], among the code units below 256. *)
Definition is_space (c : ascii) : bool :=
  match nat_of_ascii c with
  | 9 | 10 | 11 | 12 | 13 | 32 | 160 => true
  | _ => false
  end.

(** Line terminators: the characters [.] does not match. *)
Definition is_line_terminator (c : ascii) : bool :=
  (c =? LF)%char || (c =? CR)%char.

Fixpoint trimStart (s : string) : string :=
  match s with
  | EmptyString => EmptyString
  | String c r => if is_space c then trimStart r else s
  end.

Fixpoint trimEnd (s : string) : string :=
  match s with
  | EmptyString => EmptyString
  | String c r =>
      let r' := trimEnd r in
      if is_space c && negb (truthy r') then EmptyString else String c r'
  end.

(** [s.trim()] *)
Definition trim (s : string) : string := trimEnd (trimStart s).

(** [s.startsWith(p)] *)
Definition startsWith (s p : string) : bool := String.prefix p s.

(** [s.substring(n)] *)
Fixpoint drop (n : nat) (s : string) : string :=
  match n, s with
  | O, _ => s
  | S n', String _ r => drop n' r
  | S _, EmptyString => EmptyString
  end.

(** [message.replace(/"/g, '\\"')]: every double quote gets a backslash
    in front of it. *)
Fixpoint escape_quotes (s : string) : string :=
  match s with
  | EmptyString => EmptyString
  | String c r =>
      if (c =? dquote)%char
      then String "\" (String dquote (escape_quotes r))
      else String c (escape_quotes r)
  end.

(** *** [/\/([^\/]+?)(\.git)?$/]

    [repo_tail s] matches [([^\/]+?)(\.git)?$] at the start of [s] and
    gives group 1: the lazy group takes one more character at a time,
    and after each one the rest has to be [.git] or empty. *)
Fixpoint repo_tail (s : string) : option string :=
  match s with
  | EmptyString => None
  | String c r =>
      if (c =? "/")%char then None
      else if (r =? ".git") || (r =? EmptyString) then Some (String c EmptyString)
      else option_map (String c) (repo_tail r)
  end.

(** [s.match(/\/([^\/]+?)(\.git)?$/)], group 1 of the leftmost match. *)
Fixpoint repo_match (s : string) : option string :=
  match s with
  | EmptyString => None
  | String c r =>
      if (c =? "/")%char then
        match repo_tail r with
        | Some g => Some g
        | None => repo_match r
        end
      else repo_match r
  end.

(** *** [s.split(/[\\/]/)] *)
Definition is_sep (c : ascii) : bool := (c =? "/")%char || (c =? "\")%char.

Fixpoint split_path (s : string) : list string :=
  match s with
  | EmptyString => [EmptyString]
  | String c r =>
      if is_sep c then EmptyString :: split_path r
      else match split_path r with
           | h :: t => String c h :: t
           | [] => [String c EmptyString]
           end
  end.

(** [a.pop()] on an array of strings: the last element, if any. *)
Definition pop (l : list string) : option string :=
  match rev l with
  | x :: _ => Some x
  | [] => None
  end.

(** *** [/origin\s+(.*?)\s+\(fetch\)/]

    [ws_fetch s] matches [\s+\(fetch\)] at the start of [s]: as an open
    parenthesis is no white space, the run of white space is taken
    whole. *)
Fixpoint ws_run (s : string) : string :=
  match s with
  | String c r => if is_space c then ws_run r else s
  | EmptyString => EmptyString
  end.

Definition ws_fetch (s : string) : bool :=
  match s with
  | String c r => is_space c && String.prefix "(fetch)" (ws_run r)
  | EmptyString => false
  end.

(** [(.*?)\s+\(fetch\)] at the start of [s]: group 1. *)
Fixpoint lazy_fetch (s : string) : option string :=
  if ws_fetch s then Some EmptyString
  else match s with
       | EmptyString => None
       | String c r =>
           if is_line_terminator c then None
           else option_map (String c) (lazy_fetch r)
       end.

(** [\s+(.*?)\s+\(fetch\)] at the start of [s]: the greedy [\s+] first
    tries to take more white space and gives it back on failure. *)
Fixpoint greedy_ws_fetch (s : string) : option string :=
  match s with
  | EmptyString => None
  | String c r =>
      if is_space c then
        match greedy_ws_fetch r with
        | Some g => Some g
        | None => lazy_fetch r
        end
      else None
  end.

(** [s.match(/origin\s+(.*?)\s+\(fetch\)/)], group 1 of the leftmost
    match. *)
Fixpoint origin_match (s : string) : option string :=
  match s with
  | EmptyString => None
  | String _ r =>
      match (if String.prefix "origin" s then greedy_ws_fetch (drop 6 s)
             else None) with
      | Some g => Some g
      | None => origin_match r
      end
  end.

(** *** [/https:\/\/.*?@/]

    [until_at s] matches [.*?@] at the start of [s] and gives what
    follows the match. *)
Fixpoint until_at (s : string) : option string :=
  match s with
  | EmptyString => None
  | String c r =>
      if (c =? "@")%char then Some r
      else if is_line_terminator c then None
      else until_at r
  end.

(** [s.replace(/https:\/\/.*?@/, "https://")]: the leftmost match only. *)
Fixpoint strip_auth (s : string) : string :=
  match s with
  | EmptyString => EmptyString
  | String c r =>
      match (if String.prefix "https://" s then until_at (drop 8 s)
             else None) with
      | Some rest => "https://" ++ rest
      | None => String c (strip_auth r)
      end
  end.

(** [GetSubstitution] for a string pattern (no capture groups): in the
    replacement text [$$] is a dollar, [$&] the match, [$`] the text
    before it and [$'] the text after it; any other dollar is literal. *)
Fixpoint get_substitution (matched before after repl : string) : string :=
  match repl with
  | EmptyString => EmptyString
  | String c r =>
      if (c =? "$")%char then
        match r with
        | String d r' =>
            if (d =? "$")%char then
              String "$" (get_substitution matched before after r')
            else if (d =? "&")%char then
              matched ++ get_substitution matched before after r'
            else if (d =? "`")%char then
              before ++ get_substitution matched before after r'
            else if (d =? "'")%char then
              after ++ get_substitution matched before after r'
            else String c (get_substitution matched before after r)
        | EmptyString => String c EmptyString
        end
      else String c (get_substitution matched before after r)
  end.

(** [s.replace(p, repl)] for a string pattern [p]: the first occurrence
    of [p] is replaced by the expansion of [repl]. [before] collects the
    characters already passed. *)
Fixpoint replace_from (before : string) (p repl s : string) : string :=
  if String.prefix p s then
    get_substitution p before (drop (String.length p) s) repl
      ++ drop (String.length p) s
  else match s with
       | EmptyString => EmptyString
       | String c r =>
           String c (replace_from (before ++ String c EmptyString) p repl r)
       end.

Definition replace (s p repl : string) : string :=
  replace_from EmptyString p repl s.

(** *** Numbers

    A JavaScript number is a double. The numbers of the sources are
    intervals in whole seconds, so a number is an integer here, [None]
    when it is not finite (not a number, or an infinity).

    [double_of_Z x] is the double nearest to the integer [x], ties to
    even: every integer below 2^53 in size is a double; beyond that only
    the multiples of the unit in the last place are, and from 2^1024 on
    the result is an infinity. *)
Definition double_of_Z (x : Z) : option Z :=
  let m := Z.abs x in
  if (m <? 9007199254740992)%Z then Some x
  else
    let e := (Z.log2 m - 52)%Z in
    let q := Z.shiftr m e in
    let r := (m - Z.shiftl q e)%Z in
    let half := Z.shiftl 1 (e - 1) in
    let q' :=
      if (r <? half)%Z then q
      else if (half <? r)%Z then (q + 1)%Z
      else if Z.even q then q else (q + 1)%Z in
    let y := Z.shiftl q' e in
    if (1024 <=? Z.log2 y)%Z then None else Some (Z.sgn x * y)%Z.

(** The number an integer literal of a JSON text is parsed to, and the
    number a missing property gives in arithmetic. *)
Definition number (o : option Z) : option Z :=
  match o with
  | Some z => double_of_Z z
  | None => None
  end.

(** [a + b] and [a * b] on numbers: the exact result, rounded. *)
Definition add (a b : option Z) : option Z :=
  match a, b with
  | Some x, Some y => double_of_Z (x + y)
  | _, _ => None
  end.

Definition mul (a b : option Z) : option Z :=
  match a, b with
  | Some x, Some y => double_of_Z (x * y)
  | _, _ => None
  end.

End Js.

(** ** The world the extension acts on *)

(** [currentUser], the summary shown in the dashboard. The guest literal of
    [refreshStats] has no counters, hence the options. *)
Record User := mkUser {
  user_name : option string;
  user_email : option string;
  user_avatar : option string;
  user_followers : option Z;
  user_following : option Z;
  user_repos : option Z;
  user_contributions : option Z
}.

(** The [viewer] object [getUserProfile] resolves with; a counter is [None]
    where the optional chain gives [undefined]. *)
Record Profile := mkProfile {
  p_name : option string;
  p_login : option string;
  p_email : option string;
  p_avatarUrl : option string;
  p_followers : option Z;
  p_following : option Z;
  p_repositories : option Z;
  p_contributions : option Z
}.

(** One-way notifications: editor messages, webview messages, console. *)
Inductive Notification :=
| InfoMessage (text : string)
| ErrorMessage (text : string)
| ShowSetup
| ShowDashboard
| ShowDeviceCode (user_code verification_uri : string)
| UpdateStats (branch remote status repoName repoPath : string) (user : User)
| ConsoleError (text : string).

(** What the callback of [cp.exec] receives. *)
Inductive ExecOutcome :=
| ExecOk (stdout : string)
| ExecErr (stderr err_message : string).

(** What [vscode.authentication.getSession] does. *)
Inductive SessionOutcome :=
| SessionThrows
| SessionNone
| SessionLabel (label : string).

Record Env := mkEnv {
  (** [vscode.workspace.workspaceFolders[0].uri.fsPath], if there is one *)
  workspaceFolder : option string;
  (** the child process, given the commands run before and the command *)
  cp_exec : list string -> string -> ExecOutcome;
  (** whether calls to [context.secrets] succeed *)
  secrets_available : bool;
  (** [authService.getUserProfile(token)], [None] when it throws *)
  getUserProfile : string -> option Profile;
  getSession : SessionOutcome
}.

Record World := mkWorld {
  cmds : list string;
  notes : list Notification;
  view : bool;
  currentUser : option User;
  githubPat : option string;
  apiKey : option string
}.

Definition run_cmd (c : string) (w : World) : World :=
  mkWorld (cmds w ++ [c]) (notes w) (view w) (currentUser w)
          (githubPat w) (apiKey w).

Definition emit (n : Notification) (w : World) : World :=
  mkWorld (cmds w) (notes w ++ [n]) (view w) (currentUser w)
          (githubPat w) (apiKey w).

Definition set_user (u : option User) (w : World) : World :=
  mkWorld (cmds w) (notes w) (view w) u (githubPat w) (apiKey w).

Definition set_pat (t : option string) (w : World) : World :=
  mkWorld (cmds w) (notes w) (view w) (currentUser w) t (apiKey w).

(** ** Asynchronous methods as a state-and-exception monad *)

Inductive Res (A : Type) :=
| Ok (a : A)
| Throw (message : string).
Arguments Ok {A} a.
Arguments Throw {A} message.

Definition M (A : Type) : Type := World -> Res A * World.

Definition ret {A} (a : A) : M A := fun w => (Ok a, w).

Definition throw {A} (message : string) : M A := fun w => (Throw message, w).

Definition bind {A B} (m : M A) (k : A -> M B) : M B :=
  fun w =>
    match m w with
    | (Ok a, w') => k a w'
    | (Throw e, w') => (Throw e, w')
    end.

(** [try { m } catch (e) { h(e.message) }] *)
Definition try_catch {A} (m : M A) (h : string -> M A) : M A :=
  fun w =>
    match m w with
    | (Ok a, w') => (Ok a, w')
    | (Throw e, w') => h e w'
    end.

(** A call that is not awaited: its outcome is dropped. *)
Definition spawn {A} (m : M A) : M unit :=
  fun w => (Ok tt, snd (m w)).

Definition get_world : M World := fun w => (Ok w, w).

Definition modify (f : World -> World) : M unit := fun w => (Ok tt, f w).

Declare Scope m_scope.
Delimit Scope m_scope with M.
Notation "x <- m ;; k" := (bind m (fun x => k))
  (at level 61, m at next level, right associativity) : m_scope.
Notation "m ;;; k" := (bind m (fun _ => k))
  (at level 61, right associativity) : m_scope.
Open Scope m_scope.

Definition is_ok {A} (r : Res A) : bool :=
  match r with
  | Ok _ => true
  | Throw _ => false
  end.

(** ** gitService.ts *)

Module GitService.
Section WithEnv.

Variable env : Env.

(** The constructor: [workspaceRoot] is the first workspace folder. *)
Definition workspaceRoot : option string := workspaceFolder env.

(** [!this.workspaceRoot] *)
Definition no_root : bool := negb (Js.truthy_opt workspaceRoot).

Definition root_string : string :=
  match workspaceRoot with
  | Some s => s
  | None => EmptyString
  end.

(** [exec]: throws before running anything without a workspace root;
    otherwise the command runs, and it resolves with the trimmed output
    or rejects with [stderr || err.message]. *)
Definition exec (command : string) : M string :=
  fun w =>
    if no_root then (Throw "No workspace folder open", w)
    else match cp_exec env (cmds w) command with
         | ExecErr stderr msg =>
             (Throw (if Js.truthy stderr then stderr else msg),
              run_cmd command w)
         | ExecOk stdout => (Ok (Js.trim stdout), run_cmd command w)
         end.

Definition getRepoName : M string :=
  if no_root then ret "No Repo"
  else
    m <- try_catch
           (remoteUrl <- exec "git remote get-url origin" ;;
            ret (Js.repo_match remoteUrl))
           (fun _ => ret None) ;;
    match m with
    | Some name => ret name
    | None =>
        ret (match Js.pop (Js.split_path root_string) with
             | Some seg => if Js.truthy seg then seg else "Unknown"
             | None => "Unknown"
             end)
    end.

Definition getRepoPath : M string :=
  ret (if Js.truthy_opt workspaceRoot then root_string
       else "No workspace open").

Definition getStatus : M string :=
  if no_root then ret "No Repo"
  else
    try_catch
      (status <- exec "git status --short" ;;
       ret (if Js.truthy status then status else "Clean"))
      (fun _ => ret "Error getting status").

Definition getCurrentBranch : M string :=
  if no_root then ret "No Repo"
  else
    try_catch (exec "git rev-parse --abbrev-ref HEAD")
              (fun _ => ret "Unknown").

Definition getRemote : M string :=
  if no_root then ret "No Repo"
  else
    try_catch
      (remotes <- exec "git remote -v" ;;
       ret (match Js.origin_match remotes with
            | Some url => url
            | None => "No origin"
            end))
      (fun _ => ret "Unknown").

Definition commit_command (message : string) : string :=
  "git commit -m " ++ String Js.dquote
    (Js.escape_quotes message ++ String Js.dquote EmptyString).

Definition commit (message : string) : M string :=
  exec (commit_command message).

Definition push : M string := exec "git push".
Definition pull : M string := exec "git pull".
Definition fetch : M string := exec "git fetch".
Definition stash : M string := exec "git stash".
Definition addAll : M string := exec "git add .".

Definition updateRemoteUrlWithToken (token : string) : M string :=
  try_catch
    (remoteUrl <- exec "git remote get-url origin" ;;
     if Js.startsWith remoteUrl "https://" then
       let cleanUrl := Js.strip_auth remoteUrl in
       let newUrl :=
         Js.replace cleanUrl "https://" ("https://" ++ token ++ "@") in
       exec ("git remote set-url origin " ++ newUrl) ;;;
       ret "Remote URL updated with token"
     else ret "Remote URL is not HTTPS, skipping token update")
    (fun _ => ret "Failed to update remote URL").

Definition setRemote (url : string) : M string :=
  try_catch
    (try_catch
       (exec "git remote get-url origin" ;;;
        exec ("git remote set-url origin " ++ url) ;;;
        ret tt)
       (fun _ => exec ("git remote add origin " ++ url) ;;; ret tt) ;;;
     ret "Remote URL updated")
    (fun e => throw ("Failed to set remote: " ++ e)).

(** [output.split('\n').map(b => b.trim()).filter(b => b.length > 0)] *)
Fixpoint split_lines (s : string) : list string :=
  match s with
  | EmptyString => [EmptyString]
  | String c r =>
      if (c =? Js.LF)%char then EmptyString :: split_lines r
      else match split_lines r with
           | h :: t => String c h :: t
           | [] => [String c EmptyString]
           end
  end.

Definition getBranches : M (list string) :=
  try_catch
    (output <- exec "git branch --format='%(refname:short)'" ;;
     ret (filter Js.truthy (map Js.trim (split_lines output))))
    (fun _ => ret []).

Definition createBranch (branchName : string) : M string :=
  exec ("git checkout -b " ++ branchName).

Definition deleteBranch (branchName : string) : M string :=
  exec ("git branch -D " ++ branchName).

Definition switchBranch (branchName : string) : M string :=
  exec ("git checkout " ++ branchName).

Definition mergeBranch (branchName : string) : M string :=
  exec ("git merge " ++ branchName).

End WithEnv.
End GitService.

(** ** authService.ts: the device-flow polling loop *)

Module AuthService.

(** The parsed body of a token-endpoint response; a field is [None]
    where the object has no such property. *)
Record TokenResponse := mkTokenResponse {
  access_token : option string;
  error : option string;
  interval : option Z;
  error_description : option string
}.

(** What [await this.postRequest(...)] does inside [poll]: it throws (a
    transport error, a body that is no JSON), or gives the parsed body. *)
Inductive HttpOutcome :=
| HttpThrows (message : string)
| HttpJson (r : TokenResponse).

(** What one run of [poll] ends with. The delay of [setTimeout] is in
    milliseconds; it is [None] where the source computes a number that
    is not finite: from a missing [interval] (not a number), or beyond
    the range of doubles (an infinity). *)
Inductive PollAction :=
| Resolve (token : string)
| SetTimeout (ms : option Z)
| Reject (message : string).

Definition error_is (r : TokenResponse) (code : string) : bool :=
  match error r with
  | Some e => (e =? code)%string
  | None => false
  end.

(** [(interval + 1) * 1000], the delay in milliseconds of the timer for
    an interval in seconds, in the arithmetic of doubles. *)
Definition timer_ms (interval : option Z) : option Z :=
  Js.mul (Js.add (Js.number interval) (Some 1%Z)) (Some 1000%Z).

(** The body of [poll] after the request has returned. [interval0] is
    the [interval] argument of [pollForToken], which nothing assigns. *)
Definition poll_body (interval0 : Z) (o : HttpOutcome) : PollAction :=
  match o with
  | HttpThrows e => Reject e
  | HttpJson r =>
      if Js.truthy_opt (access_token r) then
        Resolve (match access_token r with
                 | Some t => t
                 | None => EmptyString
                 end)
      else if error_is r "authorization_pending" then
        SetTimeout (timer_ms (Some interval0))
      else if error_is r "slow_down" then
        SetTimeout (timer_ms (interval r))
      else if error_is r "expired_token" then
        Reject "Token expired"
      else if error_is r "access_denied" then
        Reject "Access denied"
      else
        Reject (match Js.or_else (error_description r)
                        (Some "Unknown error") with
                | Some d => d
                | None => EmptyString
                end)
  end.

(** What an observer of one flow sees. *)
Inductive PollEvent :=
| TokenRequest
| Wait (ms : option Z).

Inductive Settled :=
| Resolved (token : string)
| Rejected (message : string).

(** [pollForToken(device_code, interval0)] against the outcomes of its
    successive token requests: the events in order, and how the promise
    settles ([None]: the outcomes ran out while the flow was pending). *)
Fixpoint pollForToken (interval0 : Z) (outcomes : list HttpOutcome)
  : list PollEvent * option Settled :=
  match outcomes with
  | [] => ([], None)
  | o :: rest =>
      match poll_body interval0 o with
      | Resolve t => ([TokenRequest], Some (Resolved t))
      | Reject e => ([TokenRequest], Some (Rejected e))
      | SetTimeout ms =>
          let (evs, out) := pollForToken interval0 rest in
          (TokenRequest :: Wait ms :: evs, out)
      end
  end.

(** The delays of the timers set, in order. *)
Fixpoint waits (evs : list PollEvent) : list (option Z) :=
  match evs with
  | [] => []
  | TokenRequest :: r => waits r
  | Wait ms :: r => ms :: waits r
  end.

Definition pending : HttpOutcome :=
  HttpJson (mkTokenResponse None (Some "authorization_pending") None None).

Definition slow_down (n : Z) : HttpOutcome :=
  HttpJson (mkTokenResponse None (Some "slow_down") (Some n) None).

Definition granted (t : string) : HttpOutcome :=
  HttpJson (mkTokenResponse (Some t) None None None).

End AuthService.

(** ** SidebarProvider.ts: the dispatcher *)

Module SidebarProvider.

(** The [payload] of a [git-action] message. *)
Record Payload := mkPayload {
  message : option string;
  url : option string;
  name : option string
}.

(** [payload && payload.f] as a condition, and the value passed on. *)
Definition field (f : Payload -> option string) (payload : option Payload)
  : option string :=
  match payload with
  | Some p => if Js.truthy_opt (f p) then f p else None
  | None => None
  end.

Definition counter (n : option Z) : option Z :=
  match n with
  | Some k => Some k
  | None => Some 0%Z
  end.

(** The object both [handleDeviceFlowLogin] and [refreshStats] build
    from a profile. *)
Definition profile_user (p : Profile) : User :=
  mkUser (Js.or_else (p_name p) (p_login p))
         (Js.or_else (p_email p) (Some "No public email"))
         (p_avatarUrl p)
         (counter (p_followers p)) (counter (p_following p))
         (counter (p_repositories p)) (counter (p_contributions p)).

Definition guest : User :=
  mkUser (Some "Guest") (Some "Not logged in") (Some EmptyString)
         None None None None.

Definition with_session (u : User) (label : string) : User :=
  mkUser (Some label) (Some "Logged in via GitHub") (user_avatar u)
         (user_followers u) (user_following u) (user_repos u)
         (user_contributions u).

(** What [initiateDeviceFlow] does: it throws, or gives the device
    code, the user code, the verification address and the interval. *)
Inductive InitOutcome :=
| InitThrows (message : string)
| InitOk (device_code user_code verification_uri : string) (interval : Z).

(** A polling loop started by one call of [pollForToken]. *)
Inductive FlowState :=
| AwaitingResponse
| TimerSet (ms : option Z)
| Done (s : AuthService.Settled).

Record Flow := mkFlow {
  device_code : string;
  interval0 : Z;
  state : FlowState
}.

(** The extension between two turns of the event loop: the world, the
    polling loops started so far, and the device codes of the token
    requests sent so far. *)
Record Session := mkSession {
  world : World;
  flows : list Flow;
  token_requests : list string
}.

Inductive Event :=
| Login (o : InitOutcome)
| Response (i : nat) (o : AuthService.HttpOutcome)
| TimerFires (i : nat).

Fixpoint set_nth {A} (i : nat) (x : A) (l : list A) {struct l} : list A :=
  match l, i with
  | [], _ => []
  | _ :: t, O => x :: t
  | h :: t, S j => h :: set_nth j x t
  end.

Section WithEnv.

Variable env : Env.

Definition showInformationMessage (text : string) : M unit :=
  modify (emit (InfoMessage text)).

Definition showErrorMessage (text : string) : M unit :=
  modify (emit (ErrorMessage text)).

Definition console_error (text : string) : M unit :=
  modify (emit (ConsoleError text)).

(** [this._view?.webview.postMessage(n)] *)
Definition postMessage (n : Notification) : M unit :=
  fun w => (Ok tt, if view w then emit n w else w).

(** [this._context.secrets.get(key)] for the two keys. When the store
    cannot be reached the call throws; the text of that error is the
    store's own and stands here as a fixed one. *)
Definition secrets_get (key : World -> option string) : M (option string) :=
  fun w =>
    if secrets_available env then (Ok (key w), w)
    else (Throw "secret store unavailable", w).

(** [this._context.secrets.store("gitHelper.githubPat", token)] *)
Definition secrets_store_pat (token : string) : M unit :=
  fun w =>
    if secrets_available env then (Ok tt, set_pat (Some token) w)
    else (Throw "secret store unavailable", w).

(** The user shown when [currentUser] is not set: from the stored
    token's profile, else from the editor's session, else the guest. *)
Definition resolve_user : M User :=
  pat <- secrets_get githubPat ;;
  user <- (match pat with
           | Some t =>
               if Js.truthy t then
                 match getUserProfile env t with
                 | Some profile =>
                     modify (set_user (Some (profile_user profile))) ;;;
                     ret (profile_user profile)
                 | None =>
                     console_error "Failed to fetch profile with stored PAT" ;;;
                     ret guest
                 end
               else ret guest
           | None => ret guest
           end) ;;
  w <- get_world ;;
  match currentUser w with
  | Some _ => ret user
  | None =>
      match getSession env with
      | SessionLabel label => ret (with_session user label)
      | SessionNone | SessionThrows => ret user
      end
  end.

Definition refreshStats : M unit :=
  try_catch
    (branch <- GitService.getCurrentBranch env ;;
     remote <- GitService.getRemote env ;;
     status <- GitService.getStatus env ;;
     repoName <- GitService.getRepoName env ;;
     repoPath <- GitService.getRepoPath env ;;
     w <- get_world ;;
     user <- (match currentUser w with
              | Some u => ret u
              | None => resolve_user
              end) ;;
     postMessage (UpdateStats branch remote status repoName repoPath user))
    (fun _ => console_error "Failed to refresh stats").

Definition checkAuth : M unit :=
  key <- secrets_get apiKey ;;
  pat <- secrets_get githubPat ;;
  if negb (Js.truthy_opt key) || negb (Js.truthy_opt pat)
  then postMessage ShowSetup
  else postMessage ShowDashboard ;;; spawn refreshStats.

(** The [switch] of [handleGitAction]: the value left in [result]. *)
Definition dispatch (action : string) (payload : option Payload) : M string :=
  if action =? "status" then GitService.getStatus env
  else if action =? "push" then GitService.push env
  else if action =? "pull" then GitService.pull env
  else if action =? "fetch" then GitService.fetch env
  else if action =? "commit" then
    match field message payload with
    | Some m => GitService.commit env m
    | None => throw "Commit message required"
    end
  else if action =? "fast-push" then
    GitService.addAll env ;;;
    GitService.commit env "Fast Push: Auto-commit" ;;;
    GitService.push env
  else if action =? "stash" then GitService.stash env
  else if action =? "set-remote" then
    match field url payload with
    | Some u => GitService.setRemote env u
    | None => throw "Remote URL required"
    end
  else if action =? "create-branch" then
    match field name payload with
    | Some n => GitService.createBranch env n
    | None => throw "Branch name required"
    end
  else if action =? "delete-branch" then
    match field name payload with
    | Some n => GitService.deleteBranch env n
    | None => throw "Branch name required"
    end
  else if action =? "switch-branch" then
    match field name payload with
    | Some n => GitService.switchBranch env n
    | None => throw "Branch name required"
    end
  else if action =? "merge-branch" then
    match field name payload with
    | Some n => GitService.mergeBranch env n
    | None => throw "Branch name required"
    end
  else ret EmptyString.

(** [handleGitAction]: the refresh is the last statement of the [try]
    block and is not awaited; the [catch] block only shows the error. *)
Definition handleGitAction (action : string) (payload : option Payload)
  : M unit :=
  fun w =>
    match dispatch action payload w with
    | (Ok result, w') =>
        (showInformationMessage
           ("Git " ++ action ++ " success: " ++ result) ;;;
         spawn refreshStats) w'
    | (Throw e, w') =>
        showErrorMessage ("Git " ++ action ++ " failed: " ++ e) w'
    end.

(** *** [handleDeviceFlowLogin] *)

(** The [if (token)] block that follows [await pollForToken(...)]. *)
Definition login_succeeded (token : string) : M unit :=
  if Js.truthy token then
    secrets_store_pat token ;;;
    showInformationMessage "Successfully logged in with GitHub!" ;;;
    GitService.updateRemoteUrlWithToken env token ;;;
    (match getUserProfile env token with
     | Some profile => modify (set_user (Some (profile_user profile)))
     | None => console_error "Failed to fetch profile"
     end) ;;;
    spawn checkAuth
  else ret tt.

(** The [catch] block. *)
Definition login_failed (e : string) : M unit :=
  showErrorMessage ("Device Flow Login failed: " ++ e) ;;;
  postMessage ShowSetup.

(** What [handleDeviceFlowLogin] does once the promise of
    [pollForToken] has settled. *)
Definition after_poll (s : AuthService.Settled) : M unit :=
  match s with
  | AuthService.Resolved t => try_catch (login_succeeded t) login_failed
  | AuthService.Rejected e => login_failed e
  end.

(** One turn of the event loop. A login adds a polling loop of its own,
    whose first request goes out at once; a response is handled by the
    loop that sent the request; a timer that fires sends that loop's next
    request. The source keeps no handle on a loop (no timer id, no flag,
    no disposal handler), so no event touches another loop. *)
Definition step (ev : Event) (s : Session) : Session :=
  match ev with
  | Login (InitThrows e) =>
      mkSession (snd (login_failed e (world s))) (flows s)
                (token_requests s)
  | Login (InitOk dc uc vu iv) =>
      mkSession (snd (postMessage (ShowDeviceCode uc vu) (world s)))
                (flows s ++ [mkFlow dc iv AwaitingResponse])
                (token_requests s ++ [dc])
  | Response i o =>
      match nth_error (flows s) i with
      | Some (mkFlow dc iv AwaitingResponse) =>
          match AuthService.poll_body iv o with
          | AuthService.Resolve t =>
              mkSession
                (snd (after_poll (AuthService.Resolved t) (world s)))
                (set_nth i (mkFlow dc iv (Done (AuthService.Resolved t)))
                         (flows s))
                (token_requests s)
          | AuthService.Reject e =>
              mkSession
                (snd (after_poll (AuthService.Rejected e) (world s)))
                (set_nth i (mkFlow dc iv (Done (AuthService.Rejected e)))
                         (flows s))
                (token_requests s)
          | AuthService.SetTimeout ms =>
              mkSession (world s)
                        (set_nth i (mkFlow dc iv (TimerSet ms)) (flows s))
                        (token_requests s)
          end
      | _ => s
      end
  | TimerFires i =>
      match nth_error (flows s) i with
      | Some (mkFlow dc iv (TimerSet _)) =>
          mkSession (world s)
                    (set_nth i (mkFlow dc iv AwaitingResponse) (flows s))
                    (token_requests s ++ [dc])
      | _ => s
      end
  end.

Definition run (evs : list Event) (s : Session) : Session :=
  fold_left (fun acc ev => step ev acc) evs s.

End WithEnv.
End SidebarProvider.

(** ** Sample surroundings, used to run the program on concrete inputs *)

Module Sample.

Definition w0 : World := mkWorld [] [] true None None None.

(** No workspace folder is open. *)
Definition no_workspace : Env :=
  mkEnv None (fun _ _ => ExecOk EmptyString) true (fun _ => None)
        SessionNone.

(** A workspace in which every git command fails. *)
Definition failing_git : Env :=
  mkEnv (Some "/home/u/proj") (fun _ _ => ExecErr "fatal" "exit 128") true
        (fun _ => None) SessionNone.

(** A workspace in which every git command prints nothing. *)
Definition quiet_git : Env :=
  mkEnv (Some "/home/u/proj") (fun _ _ => ExecOk EmptyString) true
        (fun _ => None) SessionNone.

(** A workspace whose [origin] has the given address. *)
Definition with_origin (origin : string) : Env :=
  mkEnv (Some "/home/u/proj")
        (fun _ c =>
           if c =? "git remote get-url origin"
           then ExecOk (origin ++ String Js.LF EmptyString)
           else ExecOk EmptyString)
        true (fun _ => None) SessionNone.

End Sample.


(** ** Vocabulary of the statements *)

(** Whether the child process reports success for a command. *)
Definition succeeds (env : Env) (history : list string) (c : string) : bool :=
  match cp_exec env history c with
  | ExecOk _ => true
  | ExecErr _ _ => false
  end.

(** The fields the dispatcher asks for, with the message it fails with. *)
Definition mandated : list (string * (SidebarProvider.Payload -> option string) * string) :=
  [ ("commit", SidebarProvider.message, "Commit message required");
    ("set-remote", SidebarProvider.url, "Remote URL required");
    ("create-branch", SidebarProvider.name, "Branch name required");
    ("delete-branch", SidebarProvider.name, "Branch name required");
    ("switch-branch", SidebarProvider.name, "Branch name required");
    ("merge-branch", SidebarProvider.name, "Branch name required") ].

(** The three commands of a fast push. *)
Definition stage_all_cmd : string := "git add .".
Definition auto_commit_cmd : string :=
  GitService.commit_command "Fast Push: Auto-commit".
Definition push_cmd : string := "git push".

(** The queries of a stats refresh, in the order [refreshStats] makes
    them: branch, remote, status, repository name. *)
Definition refresh_queries : list string :=
  [ "git rev-parse --abbrev-ref HEAD";
    "git remote -v";
    "git status --short";
    "git remote get-url origin" ].

(** The world after a facade call that runs the command [q] unless there
    is no workspace folder. *)
Definition after (env : Env) (q : list string) (w : World) : World :=
  if GitService.no_root env then w
  else mkWorld (cmds w ++ q) (notes w) (view w) (currentUser w)
               (githubPat w) (apiKey w).

(** The cases of the dispatcher's [switch]. *)
Definition known_actions : list string :=
  [ "status"; "push"; "pull"; "fetch"; "commit"; "fast-push"; "stash";
    "set-remote"; "create-branch"; "delete-branch"; "switch-branch";
    "merge-branch" ].

Definition is_update_stats (n : Notification) : bool :=
  match n with
  | UpdateStats _ _ _ _ _ _ => true
  | _ => false
  end.

Definition is_error_message (n : Notification) : bool :=
  match n with
  | ErrorMessage _ => true
  | _ => false
  end.

Definition is_console_error (n : Notification) : bool :=
  match n with
  | ConsoleError _ => true
  | _ => false
  end.

(** What [getRepoPath] resolves with. *)
Definition repo_path (env : Env) : string :=
  if Js.truthy_opt (GitService.workspaceRoot env)
  then GitService.root_string env
  else "No workspace open".

(** Whether an event belongs to the polling loop number [i]. *)
Definition of_flow (i : nat) (ev : SidebarProvider.Event) : bool :=
  match ev with
  | SidebarProvider.Login _ => false
  | SidebarProvider.Response j _ => Nat.eqb j i
  | SidebarProvider.TimerFires j => Nat.eqb j i
  end.

(** A workspace with a quiet git, a readable secret store and no profile
    service, for running the event loop. *)
Definition Sample_session : SidebarProvider.Session :=
  SidebarProvider.mkSession Sample.w0 [] [].

Definition Sample_login (device_code : string) : SidebarProvider.Event :=
  SidebarProvider.Login
    (SidebarProvider.InitOk device_code "WDJB-MJHT"
       "https://github.com/login/device" 5).

(** Whether the character [c] occurs in [s]. *)
Fixpoint has_char (c : ascii) (s : string) : bool :=
  match s with
  | EmptyString => false
  | String d r => (d =? c)%char || has_char c r
  end.

(** A path segment: not empty, and free of both separators. *)
Definition is_segment (s : string) : bool :=
  Js.truthy s && negb (has_char "/" s) && negb (has_char "\" s).

Definition get_url_cmd : string := "git remote get-url origin".

Definition set_url_cmd (url : string) : string :=
  "git remote set-url origin " ++ url.

(** ** Vocabulary for the further properties *)

(** A text of white space only (the empty one included). *)
Fixpoint all_space (s : string) : bool :=
  match s with
  | EmptyString => true
  | String c r => Js.is_space c && all_space r
  end.

(** A text without any white space. *)
Fixpoint no_space (s : string) : bool :=
  match s with
  | EmptyString => true
  | String c r => negb (Js.is_space c) && no_space r
  end.

(** Whether [s] has a double quote that no backslash stands directly in
    front of; [escaped] tells whether the character before [s] was a
    backslash. *)
Fixpoint bare_quote (escaped : bool) (s : string) : bool :=
  match s with
  | EmptyString => false
  | String c r =>
      ((c =? Js.dquote)%char && negb escaped) || bare_quote (c =? "\")%char r
  end.

(** The reading that undoes the escaping of [commit]: a backslash
    directly in front of a double quote is dropped. *)
Fixpoint drop_escapes (s : string) : string :=
  match s with
  | EmptyString => EmptyString
  | String c r =>
      match r with
      | String d r' =>
          if (c =? "\")%char && (d =? Js.dquote)%char
          then String d (drop_escapes r')
          else String c (drop_escapes r)
      | EmptyString => String c EmptyString
      end
  end.

Definition status_cmd : string := "git status --short".
Definition remote_v_cmd : string := "git remote -v".
Definition branch_cmd : string := "git branch --format='%(refname:short)'".

Definition add_remote_cmd (url : string) : string :=
  "git remote add origin " ++ url.

(** The text of the error [exec] throws for a failed command. *)
Definition exec_error (o : ExecOutcome) : string :=
  match o with
  | ExecErr stderr msg => if Js.truthy stderr then stderr else msg
  | ExecOk _ => EmptyString
  end.

(** The actions that are one facade call running one command, with the
    command each runs for a payload. *)
Definition single_command
    (action : string) (payload : option SidebarProvider.Payload)
  : option string :=
  if action =? "push" then Some "git push"
  else if action =? "pull" then Some "git pull"
  else if action =? "fetch" then Some "git fetch"
  else if action =? "stash" then Some "git stash"
  else if action =? "commit" then
    option_map GitService.commit_command
      (SidebarProvider.field SidebarProvider.message payload)
  else if action =? "create-branch" then
    option_map (fun n => "git checkout -b " ++ n)
      (SidebarProvider.field SidebarProvider.name payload)
  else if action =? "delete-branch" then
    option_map (fun n => "git branch -D " ++ n)
      (SidebarProvider.field SidebarProvider.name payload)
  else if action =? "switch-branch" then
    option_map (fun n => "git checkout " ++ n)
      (SidebarProvider.field SidebarProvider.name payload)
  else if action =? "merge-branch" then
    option_map (fun n => "git merge " ++ n)
      (SidebarProvider.field SidebarProvider.name payload)
  else None.

(** Whether a response ends the polling loop. *)
Definition terminal (interval0 : Z) (o : AuthService.HttpOutcome) : bool :=
  match AuthService.poll_body interval0 o with
  | AuthService.SetTimeout _ => false
  | _ => true
  end.

(** The number of token requests among the events of a flow. *)
Fixpoint count_requests (evs : list AuthService.PollEvent) : nat :=
  match evs with
  | [] => 0
  | AuthService.TokenRequest :: r => S (count_requests r)
  | AuthService.Wait _ :: r => count_requests r
  end.

(** The events that take the polling loop number [i] through the given
    responses: each response arrives, then the loop's timer fires. *)
Definition drive (i : nat) (outcomes : list AuthService.HttpOutcome)
  : list SidebarProvider.Event :=
  flat_map (fun o => [SidebarProvider.Response i o;
                      SidebarProvider.TimerFires i]) outcomes.

Definition flow_state (s : SidebarProvider.Session) (i : nat)
  : option SidebarProvider.FlowState :=
  option_map SidebarProvider.state (nth_error (SidebarProvider.flows s) i).

(** ** SidebarProvider.ts: settings and logout *)





Module SidebarSettings.
Section WithEnv.

Variable env : Env.

(** Whether [config.update] succeeds for the setting of a name. *)
Variable config_writable : string -> bool.


(** [this._context.secrets.delete("gitHelper.githubPat")] *)
Definition secrets_delete_pat : M unit :=
  fun w =>
    if secrets_available env then (Ok tt, set_pat None w)
    else (Throw "secret store unavailable", w).









(** The [logout-github] case of the message handler. *)
Definition logout : M unit :=
  secrets_delete_pat ;;;
  modify (set_user None) ;;;
  SidebarProvider.showInformationMessage "Logged out from GitHub." ;;;
  spawn (SidebarProvider.checkAuth env).

End WithEnv.
End SidebarSettings.

(** The part of [refreshStats] that follows the four queries. *)
Definition refresh_tail
    (env : Env) (branch remote status repoName : string) : M unit :=
  try_catch
    (w <- get_world ;;
     user <- (match currentUser w with
              | Some u => ret u
              | None => SidebarProvider.resolve_user env
              end) ;;
     SidebarProvider.postMessage
       (UpdateStats branch remote status repoName (repo_path env) user))
    (fun _ => SidebarProvider.console_error "Failed to refresh stats").

(** The fields of the world that only a login, a logout or the settings
    change. *)
Definition same_secrets (w w' : World) : Prop :=
  githubPat w' = githubPat w /\ apiKey w' = apiKey w /\ view w' = view w.

(** ** authService.ts: the profile *)

Module AuthProfile.

(** An element of the array the email endpoint answers with: whether its
    [primary] is truthy, and its [email]. *)
Record EmailEntry := mkEmailEntry {
  e_primary : bool;
  e_email : option string
}.

(** What the GraphQL request does: it throws (transport, a body that is
    no JSON, a body with neither [errors] nor [data], an empty [errors]),
    or the body has [errors], of which the first one's message is used,
    or it has the viewer. *)
Inductive GraphqlOutcome :=
| GraphqlThrows (message : string)
| GraphqlErrors (first_message : string)
| GraphqlViewer (viewer : Profile).

(** What the request to the email endpoint does. *)
Inductive EmailsOutcome :=
| EmailsThrows (message : string)
| EmailsNotArray
| EmailsArray (entries : list EmailEntry).

Definition graphql_url : string := "https://api.github.com/graphql".
Definition emails_url : string := "https://api.github.com/user/emails".

(** One call: the addresses requested, in order, what was written to the
    console, and what the promise settles with. *)
Record Run := mkRun {
  requests : list string;
  console : list string;
  result : Res Profile
}.

(** [viewer.email = e] *)
Definition with_email (p : Profile) (e : option string) : Profile :=
  mkProfile (p_name p) (p_login p) e (p_avatarUrl p) (p_followers p)
            (p_following p) (p_repositories p) (p_contributions p).

Section WithServer.

Variable graphql : string -> GraphqlOutcome.
Variable user_emails : string -> EmailsOutcome.

Definition getUserProfile (token : string) : Run :=
  match graphql token with
  | GraphqlThrows e => mkRun [graphql_url] [] (Throw e)
  | GraphqlErrors m => mkRun [graphql_url] [] (Throw m)
  | GraphqlViewer viewer =>
      if Js.truthy_opt (p_email viewer) then
        mkRun [graphql_url] [] (Ok viewer)
      else
        match user_emails token with
        | EmailsThrows _ =>
            mkRun [graphql_url; emails_url]
                  ["Failed to fetch emails via REST"] (Ok viewer)
        | EmailsNotArray => mkRun [graphql_url; emails_url] [] (Ok viewer)
        | EmailsArray entries =>
            match find e_primary entries with
            | Some primary =>
                mkRun [graphql_url; emails_url] []
                      (Ok (with_email viewer (e_email primary)))
            | None => mkRun [graphql_url; emails_url] [] (Ok viewer)
            end
        end
  end.

End WithServer.
End AuthProfile.

(** ** aiService.ts *)

Module AIService.

(** The request [fetch] is given: the address, the key of the
    [Authorization] header, and the model and the prompt of the body. *)
Record Request := mkRequest {
  req_url : string;
  req_key : string;
  req_model : option string;
  req_prompt : string
}.

(** What happens inside the [try] block: [fetch] throws; the response is
    not ok; reading the body as JSON throws (or the body is [null]); or
    the body is an object, of which only [choices] is used, each choice
    reduced to the content of its [message] ([None] without one). *)
Inductive FetchOutcome :=
| FetchThrows (message : string)
| FetchNotOk (status : nat) (statusText text : string)
| FetchBadJson (message : string)
| FetchJson (choices : option (list (option string))).

Record AiEnv := mkAiEnv {
  (** whether [AIService.initialize] has run *)
  initialized : bool;
  (** what [secrets.get("gitHelper.apiKey")] does *)
  stored_key : Res (option string);
  (** the settings [apiBaseUrl] and [modelName] *)
  baseUrl : option string;
  model : option string;
  fetch : Request -> FetchOutcome
}.

(** [baseUrl.replace(/\/$/, "")]: a slash at the very end is removed. *)
Fixpoint strip_trailing_slash (s : string) : string :=
  match s with
  | EmptyString => EmptyString
  | String c r =>
      match r with
      | EmptyString => if (c =? "/")%char then EmptyString else s
      | String _ _ => String c (strip_trailing_slash r)
      end
  end.

(** A number in a template literal. *)
Definition decimal (n : nat) : string :=
  NilZero.string_of_uint (Nat.to_uint n).

Definition value (o : option string) : string :=
  match o with
  | Some s => s
  | None => EmptyString
  end.

Section WithAiEnv.

Variable ai : AiEnv.

(** [getCompletion]: the requests made and what the promise settles
    with. *)
Definition getCompletion (prompt : string) : list Request * Res string :=
  if negb (initialized ai) then ([], Throw "AIService not initialized")
  else
    match stored_key ai with
    | Throw e => ([], Throw e)
    | Ok apiKey =>
        if negb (Js.truthy_opt apiKey) then
          ([], Throw "API Key not set. Please run 'Git Helper: Set API Key' command.")
        else if negb (Js.truthy_opt (baseUrl ai)) then
          ([], Throw "Base URL not configured.")
        else
          let url :=
            strip_trailing_slash (value (baseUrl ai)) ++ "/chat/completions" in
          let req := mkRequest url (value apiKey) (model ai) prompt in
          ([req],
           match fetch ai req with
           | FetchThrows e => Throw ("AI Error: " ++ e)
           | FetchNotOk status statusText text =>
               Throw ("AI Error: "
                        ++ ("API Request Failed: " ++ decimal status ++ " "
                              ++ statusText ++ " - " ++ text))
           | FetchBadJson e => Throw ("AI Error: " ++ e)
           | FetchJson (Some (Some content :: _)) => Ok content
           | FetchJson _ => Ok "No response from AI."
           end)
    end.

(** An [add-chat-message] for the view. *)
Record ChatMessage := mkChat {
  role : string;
  content : string
}.

(** [handleChatQuery] of the provider: the requests made and the chat
    messages posted; without a view nothing can be posted. *)
Definition handleChatQuery (has_view : bool) (query : string)
  : list Request * list ChatMessage :=
  if negb (Js.truthy query) then ([], [])
  else
    let (reqs, r) := getCompletion query in
    (reqs,
     if has_view then
       [ mkChat "user" query;
         match r with
         | Ok response => mkChat "assistant" response
         | Throw e => mkChat "system" ("Error: " ++ e)
         end ]
     else []).

End WithAiEnv.
End AIService.


(** * Properties *)

(** ** Facts about the command runner *)

Section ExecFacts.

Variable env : Env.

Lemma exec_no_root (c : string) (w : World) :
  GitService.no_root env = true ->
  GitService.exec env c w = (Throw "No workspace folder open", w).
Proof.
  intros H. unfold GitService.exec. rewrite H. reflexivity.
Qed.

Lemma exec_root (c : string) (w : World) :
  GitService.no_root env = false ->
  GitService.exec env c w =
    (match cp_exec env (cmds w) c with
     | ExecErr stderr msg => Throw (if Js.truthy stderr then stderr else msg)
     | ExecOk stdout => Ok (Js.trim stdout)
     end, run_cmd c w).
Proof.
  intros H. unfold GitService.exec. rewrite H.
  destruct (cp_exec env (cmds w) c); reflexivity.
Qed.

(** Whatever happens, [exec] runs at most the command it is given and
    touches nothing else. *)
Lemma exec_world (c : string) (w : World) :
  snd (GitService.exec env c w) =
    if GitService.no_root env then w else run_cmd c w.
Proof.
  unfold GitService.exec. destruct (GitService.no_root env); [reflexivity|].
  destruct (cp_exec env (cmds w) c); reflexivity.
Qed.

End ExecFacts.

(** C1. For each action that needs a payload field (commit: message,
    set-remote: url, create-, delete-, switch- and merge-branch: name),
    dispatching it without the field (no payload, no such field, or an
    empty one) fails with that action's validation message, reported as
    [Git <action> failed: ...], and runs no git command: the world is the
    old one plus the error message. *)
Theorem missing_field_fails_without_git
    (env : Env) (action msg : string)
    (f : SidebarProvider.Payload -> option string)
    (payload : option SidebarProvider.Payload) (w : World) :
  In (action, f, msg) mandated ->
  SidebarProvider.field f payload = None ->
  SidebarProvider.dispatch env action payload w = (Throw msg, w)
  /\ SidebarProvider.handleGitAction env action payload w =
       (Ok tt, emit (ErrorMessage ("Git " ++ action ++ " failed: " ++ msg)) w)
  /\ cmds (snd (SidebarProvider.handleGitAction env action payload w)) = cmds w.
Proof.
  intros Hin Hf.
  assert (Hd : SidebarProvider.dispatch env action payload w = (Throw msg, w)).
  { simpl in Hin.
    repeat (destruct Hin as [Hin | Hin];
            [ injection Hin as <- <- <-;
              unfold SidebarProvider.dispatch; simpl;
              rewrite Hf; reflexivity
            | ]).
    contradiction. }
  split; [exact Hd|].
  unfold SidebarProvider.handleGitAction. rewrite Hd.
  split; reflexivity.
Qed.

Lemma missing_field_fails_without_git_witness :
  SidebarProvider.handleGitAction Sample.quiet_git "commit"
      (Some (SidebarProvider.mkPayload None None (Some "main"))) Sample.w0 =
    (Ok tt, emit (ErrorMessage "Git commit failed: Commit message required")
                 Sample.w0).
Proof.
  apply (missing_field_fails_without_git Sample.quiet_git "commit"
           "Commit message required" SidebarProvider.message).
  - simpl. left. reflexivity.
  - reflexivity.
Defined.

(** C2. A fast push attempts stage-all, then the commit with the message
    [Fast Push: Auto-commit], then the push, in this order, and stops at
    the first step that fails: the commands run are [git add .], then
    the commit only if staging succeeded, then the push only if the commit
    succeeded; the action succeeds exactly when all three do, and a failed
    one is reported as [Git fast-push failed: ...] with nothing run after
    the failing step. (Without a workspace folder the first step fails
    before any command runs.) *)
Theorem fast_push_sequence
    (env : Env) (payload : option SidebarProvider.Payload) (w : World) :
  let ok1 := succeeds env (cmds w) stage_all_cmd in
  let ok2 := succeeds env (cmds w ++ [stage_all_cmd]) auto_commit_cmd in
  let ok3 :=
    succeeds env (cmds w ++ [stage_all_cmd; auto_commit_cmd]) push_cmd in
  let r := fst (SidebarProvider.dispatch env "fast-push" payload w) in
  let w1 := snd (SidebarProvider.dispatch env "fast-push" payload w) in
  auto_commit_cmd =
    "git commit -m " ++ String Js.dquote
      ("Fast Push: Auto-commit" ++ String Js.dquote EmptyString)
  /\ cmds w1 =
       (cmds w ++
          (if GitService.no_root env then []
           else stage_all_cmd ::
                  (if ok1
                   then auto_commit_cmd :: (if ok2 then [push_cmd] else [])
                   else [])))%list
  /\ notes w1 = notes w
  /\ is_ok r = negb (GitService.no_root env) && ok1 && ok2 && ok3
  /\ (is_ok r = false ->
      exists e,
        r = Throw e
        /\ SidebarProvider.handleGitAction env "fast-push" payload w =
             (Ok tt, emit (ErrorMessage ("Git fast-push failed: " ++ e)) w1)).
Proof.
  cbv zeta.
  split; [reflexivity|].
  unfold SidebarProvider.handleGitAction.
  replace (SidebarProvider.dispatch env "fast-push" payload w)
    with ((GitService.addAll env ;;;
           GitService.commit env "Fast Push: Auto-commit" ;;;
           GitService.push env) w) by reflexivity.
  unfold bind, GitService.addAll, GitService.commit, GitService.push.
  fold stage_all_cmd auto_commit_cmd push_cmd.
  destruct (GitService.no_root env) eqn:Hroot.
  - rewrite (exec_no_root env _ _ Hroot). simpl.
    rewrite app_nil_r. repeat split; eauto.
  - rewrite (exec_root env _ _ Hroot). unfold succeeds.
    destruct (cp_exec env (cmds w) stage_all_cmd) eqn:E1; simpl.
    2:{ repeat split; eauto. }
    rewrite (exec_root env _ _ Hroot). simpl.
    destruct (cp_exec env (cmds w ++ [stage_all_cmd]) auto_commit_cmd) eqn:E2;
      simpl.
    2:{ rewrite <- app_assoc. repeat split; eauto. }
    rewrite (exec_root env _ _ Hroot). simpl.
    rewrite <- !app_assoc. simpl.
    destruct (cp_exec env (cmds w ++ [stage_all_cmd; auto_commit_cmd]) push_cmd)
      eqn:E3; simpl; repeat split; eauto; discriminate.
Qed.

(** ** Facts about the stats refresh *)

Section RefreshFacts.

Variable env : Env.

Lemma bind_ok {A B} (m : M A) (k : A -> M B) (w w' : World) (v : A) :
  m w = (Ok v, w') -> bind m k w = k v w'.
Proof. intros H. unfold bind. rewrite H. reflexivity. Qed.

Lemma after_nil (w : World) : after env [] w = w.
Proof.
  unfold after. destruct (GitService.no_root env); [reflexivity|].
  destruct w; simpl. rewrite app_nil_r. reflexivity.
Qed.

Lemma after_after (q1 q2 : list string) (w : World) :
  after env q2 (after env q1 w) = after env (q1 ++ q2) w.
Proof.
  unfold after. destruct (GitService.no_root env); [reflexivity|].
  simpl. rewrite app_assoc. reflexivity.
Qed.

Lemma exec_after (c : string) (w : World) :
  snd (GitService.exec env c w) = after env [c] w.
Proof. rewrite exec_world. reflexivity. Qed.

Lemma getCurrentBranch_total (w : World) :
  exists v, GitService.getCurrentBranch env w =
              (Ok v, after env ["git rev-parse --abbrev-ref HEAD"] w).
Proof.
  unfold GitService.getCurrentBranch, after, try_catch, GitService.exec.
  destruct (GitService.no_root env); [eexists; reflexivity|].
  destruct (cp_exec env (cmds w) _); eexists; reflexivity.
Qed.

Lemma getRemote_total (w : World) :
  exists v, GitService.getRemote env w = (Ok v, after env ["git remote -v"] w).
Proof.
  unfold GitService.getRemote, after, try_catch, bind, GitService.exec.
  destruct (GitService.no_root env); [eexists; reflexivity|].
  destruct (cp_exec env (cmds w) _); eexists; reflexivity.
Qed.

Lemma getStatus_total (w : World) :
  exists v, GitService.getStatus env w =
              (Ok v, after env ["git status --short"] w).
Proof.
  unfold GitService.getStatus, after, try_catch, bind, GitService.exec.
  destruct (GitService.no_root env); [eexists; reflexivity|].
  destruct (cp_exec env (cmds w) _); eexists; reflexivity.
Qed.

Lemma getRepoName_total (w : World) :
  exists v, GitService.getRepoName env w =
              (Ok v, after env ["git remote get-url origin"] w).
Proof.
  unfold GitService.getRepoName, after, try_catch, bind, GitService.exec.
  destruct (GitService.no_root env); [eexists; reflexivity|].
  destruct (cp_exec env (cmds w) _); simpl.
  - destruct (Js.repo_match _); eexists; reflexivity.
  - eexists; reflexivity.
Qed.

Lemma console_not_error (l : list Notification) :
  Forall (fun n => is_console_error n = true) l ->
  Forall (fun n => is_error_message n = false) l.
Proof.
  apply Forall_impl. intros [] H; try discriminate H; reflexivity.
Qed.

Lemma console_not_stats (l : list Notification) :
  Forall (fun n => is_console_error n = true) l ->
  Forall (fun n => is_update_stats n = false) l.
Proof.
  apply Forall_impl. intros [] H; try discriminate H; reflexivity.
Qed.

(** The part of [refreshStats] that finds the user: it never runs a git
    command and writes to the console at most; it throws only when the
    secret store cannot be read. *)
Lemma resolve_user_effect (w : World) :
  exists l u,
    Forall (fun n => is_console_error n = true) l
    /\ cmds (snd (SidebarProvider.resolve_user env w)) = cmds w
    /\ notes (snd (SidebarProvider.resolve_user env w)) = (notes w ++ l)%list
    /\ view (snd (SidebarProvider.resolve_user env w)) = view w
    /\ (secrets_available env = true ->
        fst (SidebarProvider.resolve_user env w) = Ok u)
    /\ (secrets_available env = false ->
        l = [] /\ exists e, fst (SidebarProvider.resolve_user env w) = Throw e).
Proof.
  unfold SidebarProvider.resolve_user, SidebarProvider.secrets_get, bind.
  destruct (secrets_available env).
  2:{ exists [], SidebarProvider.guest. simpl. rewrite app_nil_r.
      repeat split; eauto; discriminate. }
  destruct (githubPat w) as [t|] eqn:Hp.
  - destruct (Js.truthy t).
    + destruct (getUserProfile env t) as [p|]; simpl.
      * exists [], (SidebarProvider.profile_user p). simpl.
        rewrite app_nil_r. repeat split; auto; discriminate.
      * destruct (currentUser w), (getSession env); simpl;
          eexists [_], _; simpl;
          (repeat split; [repeat constructor | discriminate ..]).
    + simpl. destruct (currentUser w), (getSession env); simpl;
        eexists [], _; simpl; rewrite app_nil_r;
        (repeat split; [constructor | discriminate ..]).
  - simpl. destruct (currentUser w), (getSession env); simpl;
      eexists [], _; simpl; rewrite app_nil_r;
      (repeat split; [constructor | discriminate ..]).
Qed.

(** A stats refresh asks git for the branch, the remote, the status and
    the origin address, in this order (nothing without a workspace
    folder), never throws and shows no error message; with a view
    attached, and the user cached or the secret store readable, the last
    thing it does is to send [update-stats], whose path is the workspace
    root. *)
Lemma refreshStats_effect (w : World) :
  exists l,
    fst (SidebarProvider.refreshStats env w) = Ok tt
    /\ cmds (snd (SidebarProvider.refreshStats env w)) =
         (cmds w ++ (if GitService.no_root env then [] else refresh_queries))%list
    /\ notes (snd (SidebarProvider.refreshStats env w)) = (notes w ++ l)%list
    /\ Forall (fun n => is_error_message n = false) l
    /\ (view w = true ->
        currentUser w <> None \/ secrets_available env = true ->
        exists l' branch remote status repoName user,
          l = (l' ++ [UpdateStats branch remote status repoName
                        (repo_path env) user])%list
          /\ Forall (fun n => is_update_stats n = false) l').
Proof.
  unfold SidebarProvider.refreshStats, try_catch.
  destruct (getCurrentBranch_total w) as [b Hb].
  rewrite (bind_ok _ _ _ _ _ Hb).
  destruct (getRemote_total (after env ["git rev-parse --abbrev-ref HEAD"] w))
    as [r Hr].
  rewrite (bind_ok _ _ _ _ _ Hr).
  destruct (getStatus_total
              (after env ["git remote -v"]
                 (after env ["git rev-parse --abbrev-ref HEAD"] w)))
    as [s Hs].
  rewrite (bind_ok _ _ _ _ _ Hs).
  destruct (getRepoName_total
              (after env ["git status --short"]
                 (after env ["git remote -v"]
                    (after env ["git rev-parse --abbrev-ref HEAD"] w))))
    as [n Hn].
  rewrite (bind_ok _ _ _ _ _ Hn).
  rewrite !after_after. simpl app. fold refresh_queries.
  set (w4 := after env refresh_queries w).
  assert (Hc : cmds w4 =
               (cmds w ++ (if GitService.no_root env then []
                           else refresh_queries))%list).
  { unfold w4, after. destruct (GitService.no_root env); simpl;
      [rewrite app_nil_r|]; reflexivity. }
  assert (Hnotes : notes w4 = notes w).
  { unfold w4, after. destruct (GitService.no_root env); reflexivity. }
  assert (Hview : view w4 = view w).
  { unfold w4, after. destruct (GitService.no_root env); reflexivity. }
  assert (Huser : currentUser w4 = currentUser w).
  { unfold w4, after. destruct (GitService.no_root env); reflexivity. }
  cbv beta iota delta [bind ret get_world GitService.getRepoPath].
  fold (repo_path env).
  rewrite Huser.
  destruct (currentUser w) as [u|] eqn:Hu.
  - unfold SidebarProvider.postMessage. rewrite Hview.
    destruct (view w); simpl.
    + eexists [_]. rewrite Hc, Hnotes.
      repeat split; [repeat constructor|].
      intros _ _. exists []. do 5 eexists. simpl.
      split; [reflexivity|constructor].
    + exists []. rewrite Hc, Hnotes, app_nil_r.
      repeat split; [constructor | discriminate].
  - destruct (resolve_user_effect w4)
      as (l & u & Hl & Hrc & Hrn & Hrv & Hok & Hko).
    destruct (secrets_available env) eqn:Hsec.
    + specialize (Hok eq_refl).
      destruct (SidebarProvider.resolve_user env w4) as [ru w5] eqn:Hru.
      simpl in Hok, Hrc, Hrn, Hrv. subst ru.
      unfold SidebarProvider.postMessage. rewrite Hrv, Hview.
      destruct (view w); simpl.
      * exists (l ++ [UpdateStats b r s n (repo_path env) u])%list.
        rewrite Hrc, Hrn, Hc, Hnotes, app_assoc.
        repeat split.
        -- apply Forall_app. split;
             [apply console_not_error; exact Hl | repeat constructor].
        -- intros _ _. exists l. do 5 eexists. split; [reflexivity|].
           apply console_not_stats; exact Hl.
      * exists l. rewrite Hrc, Hrn, Hc, Hnotes.
        repeat split; [apply console_not_error; exact Hl | discriminate].
    + destruct (Hko eq_refl) as (-> & e & He).
      destruct (SidebarProvider.resolve_user env w4) as [ru w5] eqn:Hru.
      simpl in He, Hrc, Hrn, Hrv. subst ru.
      unfold SidebarProvider.console_error, modify. simpl.
      eexists [_]. rewrite Hrc, Hrn, Hc, Hnotes, app_nil_r.
      repeat split; [repeat constructor|].
      intros _ [H|H]; [congruence | discriminate].
Qed.

End RefreshFacts.

(** ** The dispatcher and the refresh *)

Section DispatchFacts.

Variable env : Env.

(** After a successful [switch], the dispatcher shows the success message
    and starts a stats refresh. *)
Lemma handleGitAction_ok
    (action : string) (payload : option SidebarProvider.Payload)
    (w w1 : World) (result : string) :
  SidebarProvider.dispatch env action payload w = (Ok result, w1) ->
  SidebarProvider.handleGitAction env action payload w =
    (Ok tt,
     snd (SidebarProvider.refreshStats env
            (emit (InfoMessage ("Git " ++ action ++ " success: " ++ result))
                  w1))).
Proof.
  intros H. unfold SidebarProvider.handleGitAction. rewrite H. reflexivity.
Qed.

(** After a failed one, it shows the error message and does nothing
    else. *)
Lemma handleGitAction_throw
    (action : string) (payload : option SidebarProvider.Payload)
    (w w1 : World) (e : string) :
  SidebarProvider.dispatch env action payload w = (Throw e, w1) ->
  SidebarProvider.handleGitAction env action payload w =
    (Ok tt, emit (ErrorMessage ("Git " ++ action ++ " failed: " ++ e)) w1).
Proof.
  intros H. unfold SidebarProvider.handleGitAction. rewrite H. reflexivity.
Qed.

Lemma dispatch_unknown
    (action : string) (payload : option SidebarProvider.Payload) (w : World) :
  ~ In action known_actions ->
  SidebarProvider.dispatch env action payload w = (Ok EmptyString, w).
Proof.
  intros H. unfold SidebarProvider.dispatch.
  repeat match goal with
         | |- context [String.eqb action ?k] =>
             destruct (String.eqb_spec action k) as [->|_];
             [exfalso; apply H; simpl; tauto|]
         end.
  reflexivity.
Qed.

End DispatchFacts.

Lemma append_empty_r (s : string) : s ++ EmptyString = s.
Proof. induction s; simpl; [|rewrite IHs]; reflexivity. Qed.

(** C10. An action that is none of the twelve cases of the [switch] is
    not rejected: the [switch] leaves the result empty, the dispatcher
    shows [Git <action> success: ] with nothing after the colon, no error
    message appears, and the stats refresh runs as after any success (its
    four queries, and the [update-stats] message when a view is attached
    and the user can be found). *)
Theorem unknown_action_accepted
    (env : Env) (action : string)
    (payload : option SidebarProvider.Payload) (w : World) :
  ~ In action known_actions ->
  let w' := snd (SidebarProvider.handleGitAction env action payload w) in
  SidebarProvider.dispatch env action payload w = (Ok EmptyString, w)
  /\ SidebarProvider.handleGitAction env action payload w =
       (Ok tt,
        snd (SidebarProvider.refreshStats env
               (emit (InfoMessage ("Git " ++ action ++ " success: ")) w)))
  /\ cmds w' =
       (cmds w ++ (if GitService.no_root env then [] else refresh_queries))%list
  /\ exists l,
       notes w' =
         (notes w ++ InfoMessage ("Git " ++ action ++ " success: ") :: l)%list
       /\ Forall (fun n => is_error_message n = false) l
       /\ (view w = true ->
           currentUser w <> None \/ secrets_available env = true ->
           exists l' branch remote status repoName user,
             l = (l' ++ [UpdateStats branch remote status repoName
                           (repo_path env) user])%list).
Proof.
  intros Hun w'.
  pose proof (dispatch_unknown env action payload w Hun) as Hd.
  pose proof (handleGitAction_ok env action payload w w _ Hd) as Hh.
  rewrite append_empty_r in Hh.
  split; [exact Hd|]. split; [exact Hh|].
  assert (Hw : w' = snd (SidebarProvider.refreshStats env
                          (emit (InfoMessage ("Git " ++ action ++ " success: "))
                                w)))
    by (unfold w'; rewrite Hh; reflexivity).
  clearbody w'. subst w'.
  destruct (refreshStats_effect env
              (emit (InfoMessage ("Git " ++ action ++ " success: ")) w))
    as (l & _ & Hc & Hn & Hf & Hu).
  split; [exact Hc|].
  exists l. rewrite Hn. simpl. rewrite <- app_assoc. simpl.
  split; [reflexivity|]. split; [exact Hf|].
  intros Hv Hcu. destruct (Hu Hv Hcu) as (l' & b & r & s & n & u & -> & _).
  eauto 7.
Qed.

Lemma unknown_action_accepted_witness :
  SidebarProvider.handleGitAction Sample.quiet_git "rebase" None Sample.w0 =
    (Ok tt,
     mkWorld refresh_queries
             [ InfoMessage "Git rebase success: ";
               UpdateStats EmptyString "No origin" "Clean" "proj" "/home/u/proj"
                           SidebarProvider.guest ]
             true None None None).
Proof.
  destruct (unknown_action_accepted Sample.quiet_git "rebase" None Sample.w0)
    as (_ & H & _).
  - simpl. intros H.
    repeat (destruct H as [H|H]; [discriminate H|]). exact H.
  - rewrite H. reflexivity.
Defined.

(** C3 as stated fails: after a failed action no refresh is started. With
    a view attached and the secret store readable, a push that git rejects
    leaves exactly one command run and one message shown, the error. *)
Lemma refresh_after_failure_counterexample :
  let w' :=
    snd (SidebarProvider.handleGitAction Sample.failing_git "push" None
           Sample.w0) in
  view Sample.w0 = true
  /\ secrets_available Sample.failing_git = true
  /\ cmds w' = ["git push"]
  /\ notes w' = [ErrorMessage "Git push failed: fatal"]
  /\ ~ (forall env action payload w,
          view w = true -> secrets_available env = true ->
          exists n,
            In n (notes (snd (SidebarProvider.handleGitAction
                                env action payload w)))
            /\ is_update_stats n = true).
Proof.
  cbv zeta. repeat split; try reflexivity.
  intros H.
  destruct (H Sample.failing_git "push" None Sample.w0 eq_refl eq_refl)
    as (n & Hin & Hn).
  simpl in Hin. destruct Hin as [<-|[]]. discriminate Hn.
Qed.

(** C3, amended. After every action whose [switch] succeeds, the
    dispatcher starts a stats refresh: branch, remote, status and
    repository name are queried again, in this order, after the action's
    own commands, and with a view attached and the user cached or the
    secret store readable the last notification is [update-stats] with the
    workspace path. After an action that fails, the dispatcher shows
    [Git <action> failed: ...] and does nothing else. *)
Theorem refresh_after_success
    (env : Env) (action : string)
    (payload : option SidebarProvider.Payload) (w : World) :
  let r := fst (SidebarProvider.dispatch env action payload w) in
  let w1 := snd (SidebarProvider.dispatch env action payload w) in
  let w' := snd (SidebarProvider.handleGitAction env action payload w) in
  (forall result, r = Ok result ->
     cmds w' =
       (cmds w1 ++ (if GitService.no_root env then [] else refresh_queries))%list
     /\ exists l,
          notes w' =
            (notes w1 ++
               InfoMessage ("Git " ++ action ++ " success: " ++ result) :: l)%list
          /\ Forall (fun n => is_error_message n = false) l
          /\ (view w1 = true ->
              currentUser w1 <> None \/ secrets_available env = true ->
              exists l' branch remote status repoName user,
                l = (l' ++ [UpdateStats branch remote status repoName
                              (repo_path env) user])%list
                /\ Forall (fun n => is_update_stats n = false) l'))
  /\ (forall e, r = Throw e ->
        w' = emit (ErrorMessage ("Git " ++ action ++ " failed: " ++ e)) w1).
Proof.
  cbv zeta.
  destruct (SidebarProvider.dispatch env action payload w) as [r w1] eqn:Hd.
  simpl fst. simpl snd. split.
  - intros result ->.
    rewrite (handleGitAction_ok env _ _ _ _ _ Hd).
    change (snd (Ok tt, ?x)) with x.
    destruct (refreshStats_effect env
                (emit (InfoMessage
                         ("Git " ++ action ++ " success: " ++ result)) w1))
      as (l & _ & Hc & Hn & Hf & Hu).
    split; [exact Hc|].
    exists l. rewrite Hn. simpl. rewrite <- app_assoc. simpl.
    split; [reflexivity|]. split; [exact Hf|]. exact Hu.
  - intros e ->.
    rewrite (handleGitAction_throw env _ _ _ _ _ Hd). reflexivity.
Qed.

Lemma refresh_after_success_witness :
  snd (SidebarProvider.handleGitAction Sample.failing_git "push" None
         Sample.w0) =
    emit (ErrorMessage "Git push failed: fatal")
         (snd (SidebarProvider.dispatch Sample.failing_git "push" None
                 Sample.w0))
  /\ cmds (snd (SidebarProvider.handleGitAction Sample.quiet_git "push" None
                  Sample.w0)) =
       ("git push" :: refresh_queries).
Proof.
  split.
  - destruct (refresh_after_success Sample.failing_git "push" None Sample.w0)
      as [_ H].
    apply (H "fatal"). reflexivity.
  - destruct (refresh_after_success Sample.quiet_git "push" None Sample.w0)
      as [H _].
    destruct (H EmptyString eq_refl) as [Hc _]. exact Hc.
Defined.

(** C9 as stated fails: without a workspace folder [push] throws. *)
Lemma no_workspace_push_counterexample :
  GitService.push Sample.no_workspace Sample.w0 =
    (Throw "No workspace folder open", Sample.w0)
  /\ ~ (forall env w,
          workspaceFolder env = None ->
          is_ok (fst (GitService.push env w)) = true).
Proof.
  split; [reflexivity|].
  intros H. specialize (H Sample.no_workspace Sample.w0 eq_refl).
  discriminate H.
Qed.

(** ** The polling loop *)

Lemma pollForToken_reschedule
    (interval0 : Z) (o : AuthService.HttpOutcome) (ms : option Z)
    (rest : list AuthService.HttpOutcome) :
  AuthService.poll_body interval0 o = AuthService.SetTimeout ms ->
  AuthService.pollForToken interval0 (o :: rest) =
    (AuthService.TokenRequest :: AuthService.Wait ms ::
       fst (AuthService.pollForToken interval0 rest),
     snd (AuthService.pollForToken interval0 rest)).
Proof.
  intros H. simpl. rewrite H.
  destruct (AuthService.pollForToken interval0 rest). reflexivity.
Qed.

Lemma pollForToken_resolve
    (interval0 : Z) (o : AuthService.HttpOutcome) (t : string)
    (rest : list AuthService.HttpOutcome) :
  AuthService.poll_body interval0 o = AuthService.Resolve t ->
  AuthService.pollForToken interval0 (o :: rest) =
    ([AuthService.TokenRequest], Some (AuthService.Resolved t)).
Proof. intros H. simpl. rewrite H. reflexivity. Qed.

Lemma pollForToken_reject
    (interval0 : Z) (o : AuthService.HttpOutcome) (e : string)
    (rest : list AuthService.HttpOutcome) :
  AuthService.poll_body interval0 o = AuthService.Reject e ->
  AuthService.pollForToken interval0 (o :: rest) =
    ([AuthService.TokenRequest], Some (AuthService.Rejected e)).
Proof. intros H. simpl. rewrite H. reflexivity. Qed.

Lemma error_is_eq (r : AuthService.TokenResponse) (code : string) :
  AuthService.error_is r code = true <-> AuthService.error r = Some code.
Proof.
  unfold AuthService.error_is. destruct (AuthService.error r) as [e|].
  - rewrite String.eqb_eq. split; [intros ->; reflexivity | congruence].
  - split; discriminate.
Qed.

(** Below 2^53 every integer is a double, so the arithmetic is exact. *)
Lemma double_of_Z_exact (x : Z) :
  (Z.abs x < 9007199254740992)%Z -> Js.double_of_Z x = Some x.
Proof.
  intros H. unfold Js.double_of_Z. cbv zeta.
  apply Z.ltb_lt in H. rewrite H. reflexivity.
Qed.

Lemma timer_ms_exact (i : Z) :
  (0 <= i)%Z -> ((i + 1) * 1000 < 9007199254740992)%Z ->
  AuthService.timer_ms (Some i) = Some ((i + 1) * 1000)%Z.
Proof.
  intros H0 H1. unfold AuthService.timer_ms, Js.number.
  rewrite (double_of_Z_exact i) by lia. unfold Js.add.
  rewrite (double_of_Z_exact (i + 1)) by lia. unfold Js.mul.
  rewrite (double_of_Z_exact ((i + 1) * 1000)) by lia. reflexivity.
Qed.

Lemma poll_body_pending (interval0 : Z) (r : AuthService.TokenResponse) :
  Js.truthy_opt (AuthService.access_token r) = false ->
  AuthService.error r = Some "authorization_pending" ->
  AuthService.poll_body interval0 (AuthService.HttpJson r) =
    AuthService.SetTimeout (AuthService.timer_ms (Some interval0)).
Proof.
  intros Ht He. simpl. rewrite Ht. apply error_is_eq in He. rewrite He.
  reflexivity.
Qed.

Lemma poll_body_slow_down (interval0 : Z) (r : AuthService.TokenResponse) :
  Js.truthy_opt (AuthService.access_token r) = false ->
  AuthService.error r = Some "slow_down" ->
  AuthService.poll_body interval0 (AuthService.HttpJson r) =
    AuthService.SetTimeout (AuthService.timer_ms (AuthService.interval r)).
Proof.
  intros Ht He. simpl. rewrite Ht. unfold AuthService.error_is. rewrite He.
  reflexivity.
Qed.

(** After responses that only reschedule, the loop goes on as a loop
    started afresh with the same first interval. *)
Lemma pollForToken_after_reschedules
    (interval0 : Z) (before rest : list AuthService.HttpOutcome) :
  Forall (fun o => terminal interval0 o = false) before ->
  AuthService.pollForToken interval0 (before ++ rest) =
    ((fst (AuthService.pollForToken interval0 before)
        ++ fst (AuthService.pollForToken interval0 rest))%list,
     snd (AuthService.pollForToken interval0 rest)).
Proof.
  induction 1 as [|o tl Ho _ IH].
  - simpl. destruct (AuthService.pollForToken interval0 rest). reflexivity.
  - unfold terminal in Ho.
    destruct (AuthService.poll_body interval0 o) as [t|ms|e] eqn:Hb;
      try discriminate Ho.
    change ((o :: tl) ++ rest)%list with (o :: (tl ++ rest))%list.
    rewrite (pollForToken_reschedule interval0 o ms (tl ++ rest) Hb).
    rewrite (pollForToken_reschedule interval0 o ms tl Hb).
    rewrite IH. reflexivity.
Qed.

(** C4 as stated fails: started with an interval of 5 seconds, a flow
    that is told to slow down to 10 seconds waits 11 seconds once, and 6
    seconds after the next [authorization_pending]. *)
Lemma slow_down_counterexample :
  AuthService.pollForToken 5
      [AuthService.slow_down 10; AuthService.pending; AuthService.granted "T"] =
    ([ AuthService.TokenRequest; AuthService.Wait (Some 11000%Z);
       AuthService.TokenRequest; AuthService.Wait (Some 6000%Z);
       AuthService.TokenRequest ],
     Some (AuthService.Resolved "T"))
  /\ ~ (forall interval0 n rest,
          Forall (fun d => exists ms, d = Some ms /\ ((n + 1) * 1000 <= ms)%Z)
                 (AuthService.waits
                    (fst (AuthService.pollForToken interval0
                            (AuthService.slow_down n :: rest))))).
Proof.
  split; [reflexivity|].
  intros H.
  specialize (H 5%Z 10%Z [AuthService.pending]). simpl in H.
  inversion H as [|? ? _ H2]; subst.
  inversion H2 as [|? ? (ms & Hms & Hle) _]; subst.
  injection Hms as <-. lia.
Qed.

(** C4, amended. A [slow_down] response with the interval [n] sets the
    timer of the next poll to (n + 1) * 1000 milliseconds, and that is
    all it does: the interval [pollForToken] was called with is never
    changed, so the loop goes on as before, and the timer set on a later
    [authorization_pending] is again that of the first interval,
    (interval + 1) * 1000 milliseconds. The products are those of
    doubles; they are the exact ones, n + 1 and interval + 1 seconds,
    for intervals from 0 on whose product is below 2^53. *)
Theorem slow_down_delays_one_poll
    (interval0 n : Z) (r p : AuthService.TokenResponse)
    (before between later : list AuthService.HttpOutcome) :
  Forall (fun o => terminal interval0 o = false) before ->
  Forall (fun o => terminal interval0 o = false) between ->
  Js.truthy_opt (AuthService.access_token r) = false ->
  AuthService.error r = Some "slow_down" ->
  AuthService.interval r = Some n ->
  Js.truthy_opt (AuthService.access_token p) = false ->
  AuthService.error p = Some "authorization_pending" ->
  AuthService.pollForToken interval0
      (before ++ AuthService.HttpJson r
         :: between ++ AuthService.HttpJson p :: later) =
    ((fst (AuthService.pollForToken interval0 before)
        ++ AuthService.TokenRequest
        :: AuthService.Wait (AuthService.timer_ms (Some n))
        :: fst (AuthService.pollForToken interval0 between)
        ++ AuthService.TokenRequest
        :: AuthService.Wait (AuthService.timer_ms (Some interval0))
        :: fst (AuthService.pollForToken interval0 later))%list,
     snd (AuthService.pollForToken interval0 later))
  /\ ((0 <= n)%Z -> ((n + 1) * 1000 < 9007199254740992)%Z ->
      AuthService.timer_ms (Some n) = Some ((n + 1) * 1000)%Z)
  /\ ((0 <= interval0)%Z -> ((interval0 + 1) * 1000 < 9007199254740992)%Z ->
      AuthService.timer_ms (Some interval0) =
        Some ((interval0 + 1) * 1000)%Z).
Proof.
  intros Hb Hm Hrt Hre Hri Hpt Hpe.
  split; [|split; apply timer_ms_exact].
  pose proof (poll_body_slow_down interval0 r Hrt Hre) as Hs.
  rewrite Hri in Hs.
  pose proof (poll_body_pending interval0 p Hpt Hpe) as Hp.
  rewrite (pollForToken_after_reschedules interval0 before _ Hb).
  rewrite (pollForToken_reschedule _ _ _ _ Hs).
  rewrite (pollForToken_after_reschedules interval0 between _ Hm).
  rewrite (pollForToken_reschedule _ _ _ _ Hp).
  reflexivity.
Qed.

Lemma slow_down_delays_one_poll_witness :
  AuthService.pollForToken 5
      [ AuthService.pending; AuthService.slow_down 10; AuthService.pending;
        AuthService.granted "T" ] =
    ([ AuthService.TokenRequest; AuthService.Wait (Some 6000%Z);
       AuthService.TokenRequest; AuthService.Wait (Some 11000%Z);
       AuthService.TokenRequest; AuthService.Wait (Some 6000%Z);
       AuthService.TokenRequest ],
     Some (AuthService.Resolved "T")).
Proof.
  destruct (slow_down_delays_one_poll 5 10
              (AuthService.mkTokenResponse None (Some "slow_down")
                 (Some 10%Z) None)
              (AuthService.mkTokenResponse None (Some "authorization_pending")
                 None None)
              [AuthService.pending] [] [AuthService.granted "T"]
              ltac:(repeat constructor) ltac:(constructor)
              eq_refl eq_refl eq_refl eq_refl eq_refl)
    as (H & Hn & Hi).
  rewrite (Hn ltac:(lia) ltac:(lia)), (Hi ltac:(lia) ltac:(lia)) in H.
  exact H.
Defined.

(** C6 as stated fails at [slow_down]: it is none of
    [authorization_pending], [expired_token], [access_denied] and comes
    without a token, yet the flow does not end, it sets a timer. *)
Lemma other_error_counterexample :
  AuthService.poll_body 5 (AuthService.slow_down 10) =
    AuthService.SetTimeout (Some 11000%Z)
  /\ ~ (forall interval0 r,
          Js.truthy_opt (AuthService.access_token r) = false ->
          AuthService.error r <> Some "authorization_pending" ->
          AuthService.error r <> Some "expired_token" ->
          AuthService.error r <> Some "access_denied" ->
          exists e,
            AuthService.poll_body interval0 (AuthService.HttpJson r) =
              AuthService.Reject e).
Proof.
  split; [reflexivity|].
  intros H.
  destruct (H 5%Z (AuthService.mkTokenResponse None (Some "slow_down")
                     (Some 10%Z) None))
    as [e He]; try discriminate; try reflexivity.
Qed.

(** C6, amended. Every response body is classified as follows. A
    non-empty [access_token] resolves the flow with that token, and no
    further request is made. Otherwise, [authorization_pending] sets a
    timer of (interval + 1) * 1000 milliseconds for the first interval
    and [slow_down] one of (n + 1) * 1000 milliseconds for the
    response's interval n, both products being those of doubles (the
    exact ones for intervals from 0 on whose product is below 2^53);
    [expired_token] ends the flow with [Token expired] and
    [access_denied] with [Access denied], with no further request;
    anything else ends it with the response's [error_description], or
    [Unknown error] when that is missing or empty. *)
Theorem token_response_classification
    (interval0 : Z) (r : AuthService.TokenResponse)
    (rest : list AuthService.HttpOutcome) :
  let o := AuthService.HttpJson r in
  (forall t, AuthService.access_token r = Some t -> Js.truthy t = true ->
     AuthService.poll_body interval0 o = AuthService.Resolve t
     /\ AuthService.pollForToken interval0 (o :: rest) =
          ([AuthService.TokenRequest], Some (AuthService.Resolved t)))
  /\ (Js.truthy_opt (AuthService.access_token r) = false ->
      (AuthService.error r = Some "authorization_pending" ->
         AuthService.poll_body interval0 o =
           AuthService.SetTimeout (AuthService.timer_ms (Some interval0))
         /\ ((0 <= interval0)%Z ->
             ((interval0 + 1) * 1000 < 9007199254740992)%Z ->
             AuthService.poll_body interval0 o =
               AuthService.SetTimeout (Some ((interval0 + 1) * 1000)%Z)))
      /\ (AuthService.error r = Some "slow_down" ->
            AuthService.poll_body interval0 o =
              AuthService.SetTimeout
                (AuthService.timer_ms (AuthService.interval r))
            /\ (forall n,
                  AuthService.interval r = Some n ->
                  (0 <= n)%Z -> ((n + 1) * 1000 < 9007199254740992)%Z ->
                  AuthService.poll_body interval0 o =
                    AuthService.SetTimeout (Some ((n + 1) * 1000)%Z)))
      /\ (AuthService.error r = Some "expired_token" ->
            AuthService.poll_body interval0 o =
              AuthService.Reject "Token expired"
            /\ AuthService.pollForToken interval0 (o :: rest) =
                 ([AuthService.TokenRequest],
                  Some (AuthService.Rejected "Token expired")))
      /\ (AuthService.error r = Some "access_denied" ->
            AuthService.poll_body interval0 o =
              AuthService.Reject "Access denied"
            /\ AuthService.pollForToken interval0 (o :: rest) =
                 ([AuthService.TokenRequest],
                  Some (AuthService.Rejected "Access denied")))
      /\ (AuthService.error r <> Some "authorization_pending" ->
          AuthService.error r <> Some "slow_down" ->
          AuthService.error r <> Some "expired_token" ->
          AuthService.error r <> Some "access_denied" ->
          let e :=
            match AuthService.error_description r with
            | Some d => if Js.truthy d then d else "Unknown error"
            | None => "Unknown error"
            end in
          AuthService.poll_body interval0 o = AuthService.Reject e
          /\ AuthService.pollForToken interval0 (o :: rest) =
               ([AuthService.TokenRequest], Some (AuthService.Rejected e)))).
Proof.
  cbv zeta. split.
  - intros t Ht Htr.
    assert (Hb : AuthService.poll_body interval0 (AuthService.HttpJson r) =
                 AuthService.Resolve t).
    { simpl. rewrite Ht. simpl. rewrite Htr. reflexivity. }
    split; [exact Hb | apply pollForToken_resolve; exact Hb].
  - intros Hno.
    assert (Hne : forall code,
               AuthService.error r <> Some code ->
               AuthService.error_is r code = false).
    { intros code Hc. destruct (AuthService.error_is r code) eqn:E;
        [apply error_is_eq in E; contradiction | reflexivity]. }
    split; [|split; [|split; [|split]]].
    + intros He. pose proof (poll_body_pending interval0 r Hno He) as Hp.
      split; [exact Hp|].
      intros H0 H1. rewrite Hp, (timer_ms_exact interval0 H0 H1).
      reflexivity.
    + intros He. pose proof (poll_body_slow_down interval0 r Hno He) as Hs.
      split; [exact Hs|].
      intros n Hn H0 H1. rewrite Hs, Hn, (timer_ms_exact n H0 H1).
      reflexivity.
    + intros He.
      assert (Hb : AuthService.poll_body interval0 (AuthService.HttpJson r) =
                   AuthService.Reject "Token expired").
      { simpl. rewrite Hno. unfold AuthService.error_is. rewrite He.
        reflexivity. }
      split; [exact Hb | apply pollForToken_reject; exact Hb].
    + intros He.
      assert (Hb : AuthService.poll_body interval0 (AuthService.HttpJson r) =
                   AuthService.Reject "Access denied").
      { simpl. rewrite Hno. unfold AuthService.error_is. rewrite He.
        reflexivity. }
      split; [exact Hb | apply pollForToken_reject; exact Hb].
    + intros N1 N2 N3 N4.
      assert (Hb : AuthService.poll_body interval0 (AuthService.HttpJson r) =
                   AuthService.Reject
                     (match AuthService.error_description r with
                      | Some d => if Js.truthy d then d else "Unknown error"
                      | None => "Unknown error"
                      end)).
      { simpl. rewrite Hno. rewrite !Hne by assumption. unfold Js.or_else.
        destruct (AuthService.error_description r) as [d|]; simpl;
          [destruct (Js.truthy d)|]; reflexivity. }
      split; [exact Hb | apply pollForToken_reject; exact Hb].
Qed.

Lemma token_response_classification_witness :
  AuthService.poll_body 5
      (AuthService.HttpJson
         (AuthService.mkTokenResponse None (Some "bad_verification_code") None
            (Some "The code passed is incorrect"))) =
    AuthService.Reject "The code passed is incorrect"
  /\ AuthService.poll_body 5 (AuthService.granted "T") = AuthService.Resolve "T".
Proof.
  split.
  - destruct (token_response_classification 5
                (AuthService.mkTokenResponse None
                   (Some "bad_verification_code") None
                   (Some "The code passed is incorrect")) [])
      as (_ & H).
    destruct (H eq_refl) as (_ & _ & _ & _ & H5).
    apply H5; discriminate.
  - destruct (token_response_classification 5
                (AuthService.mkTokenResponse (Some "T") None None None) [])
      as (H & _).
    apply (H "T"); reflexivity.
Defined.

(** ** Several logins *)

Section SessionFacts.

Variable env : Env.

Lemma nth_error_set_nth_other {A} (l : list A) (i j : nat) (x : A) :
  i <> j ->
  nth_error (SidebarProvider.set_nth j x l) i = nth_error l i.
Proof.
  revert i j. induction l as [|h t IH]; intros i j Hij; [reflexivity|].
  destruct j as [|j], i as [|i]; simpl; try reflexivity.
  - contradiction.
  - apply IH. intros ->. apply Hij. reflexivity.
Qed.

Lemma nth_error_set_nth_same {A} (l : list A) (i : nat) (x y : A) :
  nth_error l i = Some y ->
  nth_error (SidebarProvider.set_nth i x l) i = Some x.
Proof.
  revert i. induction l as [|h t IH]; intros [|i] H; simpl in *;
    try discriminate; [reflexivity | apply IH; exact H].
Qed.

(** An event that is not the loop's own leaves the loop as it is: neither
    a new login nor anything that happens to another loop stops it. *)
Lemma step_other_flow
    (ev : SidebarProvider.Event) (s : SidebarProvider.Session)
    (i : nat) (f : SidebarProvider.Flow) :
  of_flow i ev = false ->
  nth_error (SidebarProvider.flows s) i = Some f ->
  nth_error (SidebarProvider.flows (SidebarProvider.step env ev s)) i = Some f.
Proof.
  intros Hev Hf. destruct ev as [[e|dc uc vu iv]|j o|j]; simpl in *.
  - exact Hf.
  - rewrite nth_error_app1; [exact Hf|].
    apply nth_error_Some. rewrite Hf. discriminate.
  - apply Nat.eqb_neq in Hev.
    destruct (nth_error (SidebarProvider.flows s) j) as [[dc iv [| |]]|];
      try exact Hf.
    destruct (AuthService.poll_body iv o); simpl;
      rewrite nth_error_set_nth_other by (intros ->; apply Hev; reflexivity);
      exact Hf.
  - apply Nat.eqb_neq in Hev.
    destruct (nth_error (SidebarProvider.flows s) j) as [[dc iv [| |]]|];
      try exact Hf.
    simpl.
    rewrite nth_error_set_nth_other by (intros ->; apply Hev; reflexivity).
    exact Hf.
Qed.

Lemma run_other_flow
    (evs : list SidebarProvider.Event) (s : SidebarProvider.Session)
    (i : nat) (f : SidebarProvider.Flow) :
  Forall (fun ev => of_flow i ev = false) evs ->
  nth_error (SidebarProvider.flows s) i = Some f ->
  nth_error (SidebarProvider.flows (SidebarProvider.run env evs s)) i = Some f.
Proof.
  revert s. induction evs as [|ev evs IH]; intros s Hall Hf; [exact Hf|].
  inversion Hall as [|? ? Hev Hrest]; subst.
  simpl. apply IH; [exact Hrest|].
  apply step_other_flow; assumption.
Qed.

End SessionFacts.

(** C5 as stated fails: the source has nothing that cancels a flow. A
    second login while the first flow is pending starts a second loop;
    the first one goes on asking for its token, and when its token
    arrives late the success path runs: the token is stored and the
    success message shown. *)
Lemma superseded_flow_counterexample :
  let s :=
    SidebarProvider.run Sample.quiet_git
      [ Sample_login "device-A";
        Sample_login "device-B";
        SidebarProvider.Response 0 AuthService.pending;
        SidebarProvider.TimerFires 0;
        SidebarProvider.Response 0 (AuthService.granted "T") ]
      Sample_session in
  SidebarProvider.token_requests s = ["device-A"; "device-B"; "device-A"]
  /\ githubPat (SidebarProvider.world s) = Some "T"
  /\ In (InfoMessage "Successfully logged in with GitHub!")
        (notes (SidebarProvider.world s)).
Proof.
  cbv zeta. split; [|split].
  - vm_compute. reflexivity.
  - vm_compute. reflexivity.
  - vm_compute. tauto.
Qed.

(** C5, amended. There is no cancellation: whatever else happens (further
    logins, events of other flows), a polling loop stays as it was, and
    its own events are then handled as usual. A response to its pending
    request is classified by the loop's own interval: a token runs the
    success path of the login, a terminal error its failure path, and a
    reschedule sets its timer, after which the timer's firing sends the
    loop's next token request. *)
Theorem flow_is_never_cancelled
    (env : Env) (evs : list SidebarProvider.Event)
    (s : SidebarProvider.Session) (i : nat) (f : SidebarProvider.Flow) :
  nth_error (SidebarProvider.flows s) i = Some f ->
  Forall (fun ev => of_flow i ev = false) evs ->
  let s' := SidebarProvider.run env evs s in
  nth_error (SidebarProvider.flows s') i = Some f
  /\ (SidebarProvider.state f = SidebarProvider.AwaitingResponse ->
      forall o,
        let s'' := SidebarProvider.step env (SidebarProvider.Response i o) s' in
        match AuthService.poll_body (SidebarProvider.interval0 f) o with
        | AuthService.Resolve t =>
            SidebarProvider.world s'' =
              snd (SidebarProvider.after_poll env (AuthService.Resolved t)
                     (SidebarProvider.world s'))
        | AuthService.Reject e =>
            SidebarProvider.world s'' =
              snd (SidebarProvider.after_poll env (AuthService.Rejected e)
                     (SidebarProvider.world s'))
        | AuthService.SetTimeout ms =>
            SidebarProvider.token_requests
              (SidebarProvider.step env (SidebarProvider.TimerFires i) s'') =
              (SidebarProvider.token_requests s'
                 ++ [SidebarProvider.device_code f])%list
        end).
Proof.
  intros Hf Hall s'.
  assert (Hf' : nth_error (SidebarProvider.flows s') i = Some f)
    by (apply run_other_flow; assumption).
  split; [exact Hf'|].
  intros Hst o. cbv zeta.
  destruct f as [dc iv st]. simpl in Hst. subst st. simpl.
  rewrite Hf'.
  destruct (AuthService.poll_body iv o) as [t|ms|e]; simpl; try reflexivity.
  rewrite (nth_error_set_nth_same _ _ _ _ Hf'). reflexivity.
Qed.

Lemma flow_is_never_cancelled_witness :
  nth_error
    (SidebarProvider.flows
       (SidebarProvider.run Sample.quiet_git [Sample_login "device-B"]
          (SidebarProvider.step Sample.quiet_git (Sample_login "device-A")
             Sample_session))) 0
  = Some (SidebarProvider.mkFlow "device-A" 5 SidebarProvider.AwaitingResponse).
Proof.
  apply (flow_is_never_cancelled Sample.quiet_git [Sample_login "device-B"]
           (SidebarProvider.step Sample.quiet_git (Sample_login "device-A")
              Sample_session) 0).
  - reflexivity.
  - repeat constructor.
Defined.

(** ** Strings *)


Lemma has_char_app (c : ascii) (a b : string) :
  has_char c (a ++ b) = has_char c a || has_char c b.
Proof.
  induction a as [|d a IH]; simpl; [reflexivity|].
  rewrite IH, orb_assoc. reflexivity.
Qed.

Lemma length_append (a b : string) :
  String.length (a ++ b) = String.length a + String.length b.
Proof. induction a; simpl; [|rewrite IHa]; reflexivity. Qed.

(** *** The repository name pattern *)

(** A text with a slash in it cannot be the last segment. *)
Lemma repo_tail_slash (s : string) :
  has_char "/" s = true -> Js.repo_tail s = None.
Proof.
  induction s as [|c r IH]; simpl; [discriminate|].
  destruct (Ascii.eqb_spec c "/") as [->|Hc]; simpl; [reflexivity|].
  intros Hr.
  destruct (String.eqb_spec r ".git") as [->|_]; [discriminate Hr|].
  destruct (String.eqb_spec r EmptyString) as [->|_]; [discriminate Hr|].
  simpl. rewrite (IH Hr). reflexivity.
Qed.

Lemma repo_match_no_slash (s : string) :
  has_char "/" s = false -> Js.repo_match s = None.
Proof.
  induction s as [|c r IH]; simpl; [reflexivity|].
  destruct (Ascii.eqb_spec c "/") as [->|Hc]; simpl; [discriminate|].
  exact IH.
Qed.

(** The leftmost match is at the last slash. *)
Lemma repo_match_last_segment (dir seg : string) :
  has_char "/" seg = false ->
  Js.repo_match (dir ++ String "/" seg) = Js.repo_tail seg.
Proof.
  intros Hseg. induction dir as [|c d IH]; simpl.
  - destruct (Js.repo_tail seg); [reflexivity|].
    apply repo_match_no_slash; exact Hseg.
  - destruct (Ascii.eqb_spec c "/") as [->|Hc]; [|exact IH].
    rewrite repo_tail_slash; [exact IH|].
    rewrite has_char_app. simpl. apply orb_true_r.
Qed.

(** The lazy group stops in front of a final [.git]. *)
Lemma repo_tail_dot_git (name : string) :
  Js.truthy name = true -> has_char "/" name = false ->
  Js.repo_tail (name ++ ".git") = Some name.
Proof.
  induction name as [|c r IH]; simpl; [discriminate|].
  intros _ Hs. apply orb_false_iff in Hs. destruct Hs as [Hc Hr].
  rewrite Hc.
  destruct r as [|d r'].
  - reflexivity.
  - replace ((String d r' ++ ".git" =? ".git")%string) with false.
    2:{ symmetry. apply String.eqb_neq. intros E.
        apply (f_equal String.length) in E.
        rewrite length_append in E. simpl in E. lia. }
    simpl orb. cbv iota.
    rewrite IH; [reflexivity | reflexivity | exact Hr].
Qed.

(** Without a final [.git] the lazy group takes the whole segment. *)
Lemma repo_tail_plain (name : string) :
  Js.truthy name = true -> has_char "/" name = false ->
  (forall x, name <> x ++ ".git") ->
  Js.repo_tail name = Some name.
Proof.
  induction name as [|c r IH]; simpl; [discriminate|].
  intros _ Hs Hg. apply orb_false_iff in Hs. destruct Hs as [Hc Hr].
  rewrite Hc.
  destruct (String.eqb_spec r ".git") as [->|_].
  { exfalso. apply (Hg (String c EmptyString)). reflexivity. }
  destruct (String.eqb_spec r EmptyString) as [->|Hne]; [reflexivity|].
  simpl. rewrite IH; [reflexivity | | exact Hr |].
  - destruct r; [contradiction | reflexivity].
  - intros x ->. apply (Hg (String c x)). reflexivity.
Qed.

(** *** The folder name *)

Lemma split_path_segment (seg : string) :
  has_char "/" seg = false -> has_char "\" seg = false ->
  Js.split_path seg = [seg].
Proof.
  induction seg as [|c r IH]; simpl; [reflexivity|].
  intros H1 H2.
  apply orb_false_iff in H1. destruct H1 as [Hc1 Hr1].
  apply orb_false_iff in H2. destruct H2 as [Hc2 Hr2].
  unfold Js.is_sep. rewrite Hc1, Hc2. simpl.
  rewrite (IH Hr1 Hr2). reflexivity.
Qed.

Lemma split_path_last (dir seg : string) (sep : ascii) :
  Js.is_sep sep = true ->
  has_char "/" seg = false -> has_char "\" seg = false ->
  exists h t, Js.split_path (dir ++ String sep seg) = (h :: t ++ [seg])%list.
Proof.
  intros Hsep H1 H2. induction dir as [|c d IH]; simpl.
  - rewrite Hsep, (split_path_segment seg H1 H2).
    exists EmptyString, []. reflexivity.
  - destruct IH as (h & t & ->).
    destruct (Js.is_sep c).
    + exists EmptyString, (h :: t). reflexivity.
    + exists (String c h), t. reflexivity.
Qed.

Lemma pop_last (h : string) (t : list string) (seg : string) :
  Js.pop (h :: t ++ [seg]) = Some seg.
Proof.
  unfold Js.pop. rewrite app_comm_cons, rev_app_distr. reflexivity.
Qed.

(** C7. The repository name comes from a chain of three steps. Without a
    workspace folder it is [No Repo], and git is not asked. Otherwise git
    is asked once for the address of [origin]: when the address ends in a
    slash and a name, the name is the result, without its final [.git] if
    it has one (so [https://host/org/my-repo.git] gives [my-repo]). When
    the query fails, or the address has no such ending, the result is the
    last segment of the workspace path (so a path ending in [/proj] gives
    [proj]). *)
Theorem repository_name_chain (env : Env) (w : World) :
  (GitService.no_root env = true ->
   GitService.getRepoName env w = (Ok "No Repo", w))
  /\ (GitService.no_root env = false ->
      snd (GitService.getRepoName env w) = run_cmd get_url_cmd w
      /\ (forall out dir name,
            cp_exec env (cmds w) get_url_cmd = ExecOk out ->
            Js.truthy name = true -> has_char "/" name = false ->
            (Js.trim out = dir ++ "/" ++ name ++ ".git"
             \/ (Js.trim out = dir ++ "/" ++ name
                 /\ forall x, name <> x ++ ".git")) ->
            fst (GitService.getRepoName env w) = Ok name)
      /\ (forall dir sep seg,
            (succeeds env (cmds w) get_url_cmd = false
             \/ exists out,
                  cp_exec env (cmds w) get_url_cmd = ExecOk out
                  /\ Js.repo_match (Js.trim out) = None) ->
            workspaceFolder env = Some (dir ++ String sep seg) ->
            Js.is_sep sep = true -> is_segment seg = true ->
            fst (GitService.getRepoName env w) = Ok seg)).
Proof.
  split.
  - intros Hroot. unfold GitService.getRepoName. rewrite Hroot. reflexivity.
  - intros Hroot. unfold GitService.getRepoName. rewrite Hroot.
    unfold try_catch, bind. fold get_url_cmd.
    rewrite (exec_root env _ _ Hroot).
    split; [|split].
    + destruct (cp_exec env (cmds w) get_url_cmd); simpl;
        [destruct (Js.repo_match _)|]; reflexivity.
    + intros out dir name Hout Hn Hs Hurl. rewrite Hout. simpl.
      assert (Hm : Js.repo_match (Js.trim out) = Some name).
      { destruct Hurl as [-> | [-> Hg]].
        - change (dir ++ "/" ++ name ++ ".git")
            with (dir ++ String "/" (name ++ ".git")).
          rewrite repo_match_last_segment.
          + apply repo_tail_dot_git; assumption.
          + rewrite has_char_app, Hs. reflexivity.
        - change (dir ++ "/" ++ name) with (dir ++ String "/" name).
          rewrite repo_match_last_segment by exact Hs.
          apply repo_tail_plain; assumption. }
      rewrite Hm. reflexivity.
    + intros dir sep seg Hfail Hws Hsep Hseg.
      unfold is_segment in Hseg.
      apply andb_true_iff in Hseg. destruct Hseg as [Hseg H2].
      apply andb_true_iff in Hseg. destruct Hseg as [Ht H1].
      apply negb_true_iff in H1. apply negb_true_iff in H2.
      assert (Hfolder :
                match Js.pop (Js.split_path (GitService.root_string env)) with
                | Some s => if Js.truthy s then s else "Unknown"
                | None => "Unknown"
                end = seg).
      { unfold GitService.root_string, GitService.workspaceRoot.
        rewrite Hws.
        destruct (split_path_last dir seg sep Hsep H1 H2) as (h & t & ->).
        rewrite pop_last, Ht. reflexivity. }
      destruct Hfail as [Hf | (out & Hout & Hm)].
      * unfold succeeds in Hf.
        destruct (cp_exec env (cmds w) get_url_cmd); [discriminate Hf|].
        simpl. rewrite Hfolder. reflexivity.
      * rewrite Hout. simpl. rewrite Hm. simpl. rewrite Hfolder. reflexivity.
Qed.

Lemma repository_name_chain_witness :
  fst (GitService.getRepoName
         (Sample.with_origin "https://host/org/my-repo.git") Sample.w0) =
    Ok "my-repo"
  /\ fst (GitService.getRepoName Sample.failing_git Sample.w0) = Ok "proj"
  /\ GitService.getRepoName Sample.no_workspace Sample.w0 =
       (Ok "No Repo", Sample.w0).
Proof.
  split; [|split].
  - destruct (repository_name_chain
                (Sample.with_origin "https://host/org/my-repo.git") Sample.w0)
      as [_ H].
    destruct (H eq_refl) as (_ & Hurl & _).
    apply (Hurl ("https://host/org/my-repo.git" ++ String Js.LF EmptyString)
                "https://host/org" "my-repo");
      [reflexivity | reflexivity | reflexivity | left; reflexivity].
  - destruct (repository_name_chain Sample.failing_git Sample.w0) as [_ H].
    destruct (H eq_refl) as (_ & _ & Hdir).
    apply (Hdir "/home/u" "/"%char "proj");
      [left; reflexivity | reflexivity | reflexivity | reflexivity].
  - destruct (repository_name_chain Sample.no_workspace Sample.w0) as [H _].
    apply H. reflexivity.
Defined.

(** *** The credential pattern and the token *)
















(** * Further properties of the facade *)

(** ** Trimming *)

Lemma trimStart_blank (s : string) :
  all_space s = true -> Js.trimStart s = EmptyString.
Proof.
  induction s as [|c r IH]; simpl; [reflexivity|].
  intros H. apply andb_true_iff in H. destruct H as [Hc Hr].
  rewrite Hc. exact (IH Hr).
Qed.

Lemma trimStart_nonblank (s : string) :
  all_space s = false ->
  exists c r, Js.trimStart s = String c r /\ Js.is_space c = false.
Proof.
  induction s as [|c r IH]; simpl; [discriminate|].
  destruct (Js.is_space c) eqn:Hc; simpl.
  - exact IH.
  - intros _. exists c, r. split; [reflexivity | exact Hc].
Qed.

Lemma trimEnd_head (c : ascii) (r : string) :
  Js.is_space c = false ->
  Js.trimEnd (String c r) = String c (Js.trimEnd r).
Proof. intros Hc. simpl. rewrite Hc. reflexivity. Qed.

Lemma trimEnd_idempotent (s : string) :
  Js.trimEnd (Js.trimEnd s) = Js.trimEnd s.
Proof.
  induction s as [|c r IH]; [reflexivity|].
  simpl.
  destruct (Js.is_space c && negb (Js.truthy (Js.trimEnd r))) eqn:E;
    [reflexivity|].
  simpl. rewrite IH, E. reflexivity.
Qed.

Lemma truthy_trim (s : string) :
  Js.truthy (Js.trim s) = negb (all_space s).
Proof.
  unfold Js.trim. destruct (all_space s) eqn:E.
  - rewrite (trimStart_blank s E). reflexivity.
  - destruct (trimStart_nonblank s E) as (c & r & -> & Hc).
    rewrite (trimEnd_head c r Hc). reflexivity.
Qed.

Lemma trim_idempotent (s : string) : Js.trim (Js.trim s) = Js.trim s.
Proof.
  unfold Js.trim. destruct (all_space s) eqn:E.
  - rewrite (trimStart_blank s E). reflexivity.
  - destruct (trimStart_nonblank s E) as (c & r & -> & Hc).
    rewrite (trimEnd_head c r Hc). simpl Js.trimStart. rewrite Hc.
    rewrite <- (trimEnd_head c r Hc). apply trimEnd_idempotent.
Qed.

(** X1. With a workspace folder, [getStatus] runs [git status --short]
    once and never throws: output that is empty or white space only gives
    [Clean], any other output is given back trimmed, and a failed command
    gives [Error getting status]. *)
Theorem status_clean_or_error (env : Env) (w : World) :
  GitService.no_root env = false ->
  GitService.getStatus env w =
    (Ok (match cp_exec env (cmds w) status_cmd with
         | ExecOk out => if all_space out then "Clean" else Js.trim out
         | ExecErr _ _ => "Error getting status"
         end),
     run_cmd status_cmd w).
Proof.
  intros Hroot. unfold GitService.getStatus. rewrite Hroot.
  unfold try_catch, bind. fold status_cmd.
  rewrite (exec_root env _ _ Hroot).
  destruct (cp_exec env (cmds w) status_cmd) as [out|e m]; [|reflexivity].
  unfold ret. rewrite truthy_trim.
  destruct (all_space out); reflexivity.
Qed.

Lemma status_clean_or_error_witness :
  GitService.getStatus Sample.quiet_git Sample.w0 =
    (Ok "Clean", run_cmd status_cmd Sample.w0)
  /\ GitService.getStatus Sample.failing_git Sample.w0 =
       (Ok "Error getting status", run_cmd status_cmd Sample.w0).
Proof.
  split.
  - exact (status_clean_or_error Sample.quiet_git Sample.w0 eq_refl).
  - exact (status_clean_or_error Sample.failing_git Sample.w0 eq_refl).
Defined.

(** X2. What [exec] resolves with is trimmed: trimming it again changes
    nothing, so no caller sees output with white space at either end. *)
Theorem exec_output_is_trimmed
    (env : Env) (c : string) (w w' : World) (s : string) :
  GitService.exec env c w = (Ok s, w') -> Js.trim s = s.
Proof.
  unfold GitService.exec.
  destruct (GitService.no_root env); [discriminate|].
  destruct (cp_exec env (cmds w) c) as [out|e m]; [|discriminate].
  intros H. injection H as <- _. apply trim_idempotent.
Qed.

Lemma exec_output_is_trimmed_witness :
  Js.trim "https://host/org/my-repo.git" = "https://host/org/my-repo.git".
Proof.
  apply (exec_output_is_trimmed
           (Sample.with_origin "https://host/org/my-repo.git")
           get_url_cmd Sample.w0 (run_cmd get_url_cmd Sample.w0)).
  reflexivity.
Defined.

(** ** The commit message *)

Lemma bare_quote_escape (b : bool) (m : string) :
  bare_quote b (Js.escape_quotes m) = false.
Proof.
  revert b. induction m as [|c r IH]; intros b; [reflexivity|].
  simpl. destruct (Ascii.eqb_spec c Js.dquote) as [->|Hc].
  - simpl. apply IH.
  - simpl. apply Ascii.eqb_neq in Hc. rewrite Hc. simpl. apply IH.
Qed.

Lemma escape_quotes_plain (m : string) :
  has_char Js.dquote m = false -> Js.escape_quotes m = m.
Proof.
  induction m as [|c r IH]; simpl; [reflexivity|].
  intros H. apply orb_false_iff in H. destruct H as [Hc Hr].
  rewrite Hc, (IH Hr). reflexivity.
Qed.

Lemma escape_quotes_head (m : string) :
  match Js.escape_quotes m with
  | String d _ => (d =? Js.dquote)%char = false
  | EmptyString => True
  end.
Proof.
  destruct m as [|c r]; simpl; [exact I|].
  destruct (c =? Js.dquote)%char eqn:E; [reflexivity | exact E].
Qed.

Lemma drop_escapes_cons (c : ascii) (r : string) :
  match r with
  | String d _ => (d =? Js.dquote)%char = false
  | EmptyString => True
  end ->
  drop_escapes (String c r) = String c (drop_escapes r).
Proof.
  destruct r as [|d r']; intros H; [reflexivity|].
  change (drop_escapes (String c (String d r')))
    with (if (c =? "\")%char && (d =? Js.dquote)%char
          then String d (drop_escapes r')
          else String c (drop_escapes (String d r'))).
  rewrite H, andb_false_r. reflexivity.
Qed.

Lemma drop_escapes_escape (m : string) :
  drop_escapes (Js.escape_quotes m) = m.
Proof.
  induction m as [|c r IH]; [reflexivity|].
  simpl Js.escape_quotes.
  destruct (Ascii.eqb_spec c Js.dquote) as [->|Hc].
  - change (drop_escapes (String "\" (String Js.dquote (Js.escape_quotes r))))
      with (String Js.dquote (drop_escapes (Js.escape_quotes r))).
    rewrite IH. reflexivity.
  - rewrite drop_escapes_cons by apply escape_quotes_head.
    rewrite IH. reflexivity.
Qed.

(** X3. [commit] puts the message between double quotes after
    [git commit -m]. What stands between them is the message with a
    backslash put directly in front of each of its double quotes and
    nothing else changed: no double quote is left without its backslash,
    and dropping the backslashes in front of double quotes gives the
    message back. A message without double quotes is passed as it is. *)
Theorem commit_escapes_every_quote (env : Env) (m : string) (w : World) :
  GitService.commit env m w =
    GitService.exec env
      ("git commit -m " ++ String Js.dquote
         (Js.escape_quotes m ++ String Js.dquote EmptyString)) w
  /\ bare_quote false (Js.escape_quotes m) = false
  /\ drop_escapes (Js.escape_quotes m) = m
  /\ (has_char Js.dquote m = false -> Js.escape_quotes m = m).
Proof.
  split; [reflexivity|]. split; [|split].
  - apply bare_quote_escape.
  - apply drop_escapes_escape.
  - apply escape_quotes_plain.
Qed.

Lemma commit_escapes_every_quote_witness :
  let said := "say " ++ String Js.dquote ("hi" ++ String Js.dquote EmptyString) in
  Js.escape_quotes said =
    "say \" ++ String Js.dquote ("hi\" ++ String Js.dquote EmptyString)
  /\ drop_escapes (Js.escape_quotes said) = said
  /\ Js.escape_quotes "fix typo" = "fix typo".
Proof.
  cbv zeta. split; [reflexivity|]. split.
  - apply (commit_escapes_every_quote Sample.quiet_git
             ("say " ++ String Js.dquote ("hi" ++ String Js.dquote EmptyString))
             Sample.w0).
  - destruct (commit_escapes_every_quote Sample.quiet_git "fix typo"
                Sample.w0) as (_ & _ & _ & H).
    apply H. reflexivity.
Defined.

(** ** Setting the remote *)

(** X4. With a workspace folder, [setRemote] first asks for the address
    of [origin]. If that succeeds it runs [set-url]; if the probe or the
    [set-url] fails it runs [remote add] instead. It resolves with
    [Remote URL updated] unless the [remote add] it fell back to fails,
    and then throws [Failed to set remote: ] followed by the error of
    that [remote add]. *)
Theorem set_remote_probe_then_act (env : Env) (url : string) (w : World) :
  GitService.no_root env = false ->
  let h1 := (cmds w ++ [get_url_cmd])%list in
  let probe := succeeds env (cmds w) get_url_cmd in
  let set := succeeds env h1 (set_url_cmd url) in
  let h2 := if probe then (h1 ++ [set_url_cmd url])%list else h1 in
  let add := cp_exec env h2 (add_remote_cmd url) in
  GitService.setRemote env url w =
    if probe && set then
      (Ok "Remote URL updated",
       run_cmd (set_url_cmd url) (run_cmd get_url_cmd w))
    else
      (match add with
       | ExecOk _ => Ok "Remote URL updated"
       | ExecErr _ _ => Throw ("Failed to set remote: " ++ exec_error add)
       end,
       run_cmd (add_remote_cmd url)
         (if probe then run_cmd (set_url_cmd url) (run_cmd get_url_cmd w)
          else run_cmd get_url_cmd w)).
Proof.
  intros Hroot. cbv zeta.
  unfold GitService.setRemote, try_catch, bind, succeeds.
  fold get_url_cmd. fold (set_url_cmd url). fold (add_remote_cmd url).
  rewrite (exec_root env _ _ Hroot).
  destruct (cp_exec env (cmds w) get_url_cmd) as [o1|e1 m1]; simpl.
  - rewrite (exec_root env _ _ Hroot). simpl.
    destruct (cp_exec env (cmds w ++ [get_url_cmd]) (set_url_cmd url))
      as [o2|e2 m2]; simpl; [reflexivity|].
    rewrite (exec_root env _ _ Hroot). simpl.
    destruct (cp_exec env ((cmds w ++ [get_url_cmd]) ++ [set_url_cmd url])
                (add_remote_cmd url)); reflexivity.
  - rewrite (exec_root env _ _ Hroot). simpl.
    destruct (cp_exec env (cmds w ++ [get_url_cmd]) (add_remote_cmd url));
      reflexivity.
Qed.

Lemma set_remote_probe_then_act_witness :
  GitService.setRemote Sample.failing_git "https://host/org/repo.git"
      Sample.w0 =
    (Throw "Failed to set remote: fatal",
     mkWorld [ "git remote get-url origin";
               "git remote add origin https://host/org/repo.git" ]
             [] true None None None).
Proof.
  exact (set_remote_probe_then_act Sample.failing_git
           "https://host/org/repo.git" Sample.w0 eq_refl).
Defined.

(** ** The remote shown in the dashboard *)

Lemma space_not_terminator (c : ascii) :
  Js.is_space c = false -> Js.is_line_terminator c = false.
Proof.
  intros H. unfold Js.is_line_terminator.
  destruct (Ascii.eqb_spec c Js.LF) as [->|_]; [discriminate H|].
  destruct (Ascii.eqb_spec c Js.CR) as [->|_]; [discriminate H|].
  reflexivity.
Qed.

Lemma prefix_fetch (rest : string) :
  String.prefix "(fetch)" ("(fetch)" ++ rest) = true.
Proof. simpl. destruct rest; reflexivity. Qed.

Lemma prefix_origin (rest : string) :
  String.prefix "origin" ("origin" ++ rest) = true.
Proof. simpl. destruct rest; reflexivity. Qed.

Lemma lazy_fetch_eq (s : string) :
  Js.lazy_fetch s =
    if Js.ws_fetch s then Some EmptyString
    else match s with
         | EmptyString => None
         | String c r =>
             if Js.is_line_terminator c then None
             else option_map (String c) (Js.lazy_fetch r)
         end.
Proof. destruct s; reflexivity. Qed.

(** The lazy group runs up to the white space in front of [(fetch)]. *)
Lemma lazy_fetch_url (url rest : string) (sp : ascii) :
  no_space url = true -> Js.is_space sp = true ->
  Js.lazy_fetch (url ++ String sp ("(fetch)" ++ rest)) = Some url.
Proof.
  intros Hu Hsp. induction url as [|c u IH].
  - rewrite lazy_fetch_eq.
    replace (Js.ws_fetch ("" ++ String sp ("(fetch)" ++ rest))) with true;
      [reflexivity|].
    change (true = Js.is_space sp
                   && String.prefix "(fetch)" ("(fetch)" ++ rest)).
    rewrite Hsp, prefix_fetch. reflexivity.
  - simpl in Hu. apply andb_true_iff in Hu. destruct Hu as [Hc Hu].
    apply negb_true_iff in Hc.
    rewrite lazy_fetch_eq.
    change (Js.ws_fetch (String c u ++ String sp ("(fetch)" ++ rest)))
      with (Js.is_space c
            && String.prefix "(fetch)"
                 (Js.ws_run (u ++ String sp ("(fetch)" ++ rest)))).
    rewrite Hc. simpl andb. cbv iota.
    change (String c u ++ String sp ("(fetch)" ++ rest))
      with (String c (u ++ String sp ("(fetch)" ++ rest))).
    cbv iota. rewrite (space_not_terminator c Hc), (IH Hu). reflexivity.
Qed.

Lemma origin_match_eq (s : string) :
  Js.origin_match s =
    match s with
    | EmptyString => None
    | String _ r =>
        match (if String.prefix "origin" s
               then Js.greedy_ws_fetch (Js.drop 6 s) else None) with
        | Some g => Some g
        | None => Js.origin_match r
        end
    end.
Proof. destruct s; reflexivity. Qed.

Lemma origin_match_line (url rest : string) (sp1 sp2 c : ascii) (u : string) :
  url = String c u ->
  no_space url = true ->
  Js.is_space sp1 = true -> Js.is_space sp2 = true ->
  Js.origin_match
    ("origin" ++ String sp1 (url ++ String sp2 ("(fetch)" ++ rest))) =
    Some url.
Proof.
  intros Hurl Hu H1 H2.
  rewrite origin_match_eq.
  change ("origin" ++ String sp1 (url ++ String sp2 ("(fetch)" ++ rest)))
    with (String "o"
            ("rigin" ++ String sp1 (url ++ String sp2 ("(fetch)" ++ rest)))).
  cbv iota.
  change (String "o"
            ("rigin" ++ String sp1 (url ++ String sp2 ("(fetch)" ++ rest))))
    with ("origin" ++ String sp1 (url ++ String sp2 ("(fetch)" ++ rest))).
  rewrite prefix_origin.
  change (Js.drop 6
            ("origin" ++ String sp1 (url ++ String sp2 ("(fetch)" ++ rest))))
    with (String sp1 (url ++ String sp2 ("(fetch)" ++ rest))).
  assert (Hg : Js.greedy_ws_fetch
                 (String sp1 (url ++ String sp2 ("(fetch)" ++ rest))) =
               Some url).
  { assert (Hstep : forall a t,
               Js.greedy_ws_fetch (String a t) =
                 if Js.is_space a then
                   match Js.greedy_ws_fetch t with
                   | Some g => Some g
                   | None => Js.lazy_fetch t
                   end
                 else None) by reflexivity.
    rewrite Hstep, H1.
    rewrite (lazy_fetch_url url rest sp2 Hu H2).
    subst url. simpl in Hu. apply andb_true_iff in Hu. destruct Hu as [Hc _].
    apply negb_true_iff in Hc.
    change (String c u ++ String sp2 ("(fetch)" ++ rest))
      with (String c (u ++ String sp2 ("(fetch)" ++ rest))).
    rewrite Hstep, Hc. reflexivity. }
  rewrite Hg. reflexivity.
Qed.

(** X5. With a workspace folder, when the output of [git remote -v]
    starts with the line of [origin] for fetching, that is [origin], a
    white space, an address without white space, a white space and
    [(fetch)], then [getRemote] resolves with that address. *)
Theorem remote_is_origin_fetch_address
    (env : Env) (w : World) (out url rest : string) (sp1 sp2 : ascii) :
  GitService.no_root env = false ->
  cp_exec env (cmds w) remote_v_cmd = ExecOk out ->
  Js.trim out = "origin" ++ String sp1 (url ++ String sp2 ("(fetch)" ++ rest)) ->
  Js.truthy url = true -> no_space url = true ->
  Js.is_space sp1 = true -> Js.is_space sp2 = true ->
  GitService.getRemote env w = (Ok url, run_cmd remote_v_cmd w).
Proof.
  intros Hroot Hout Ht Hne Hu H1 H2.
  assert (Hurl : exists c u, url = String c u)
    by (destruct url as [|c u]; [discriminate Hne | eauto]).
  destruct Hurl as (c & u & Hurl).
  unfold GitService.getRemote. rewrite Hroot.
  unfold try_catch, bind. fold remote_v_cmd.
  rewrite (exec_root env _ _ Hroot), Hout. unfold ret.
  rewrite Ht, (origin_match_line url rest sp1 sp2 c u Hurl Hu H1 H2).
  reflexivity.
Qed.

Lemma remote_is_origin_fetch_address_witness :
  let out :=
    "origin" ++ String "009"%char
      ("https://host/org/repo.git" ++ String " "%char
         ("(fetch)" ++ String Js.LF
            ("origin" ++ String "009"%char
               "https://host/org/repo.git (push)"))) in
  GitService.getRemote
      (mkEnv (Some "/home/u/proj") (fun _ _ => ExecOk out) true
             (fun _ => None) SessionNone)
      Sample.w0 =
    (Ok "https://host/org/repo.git", run_cmd remote_v_cmd Sample.w0).
Proof.
  cbv zeta.
  eapply (remote_is_origin_fetch_address _ Sample.w0 _
            "https://host/org/repo.git" _ "009"%char " "%char);
    reflexivity.
Defined.

(** ** The list of branches *)

(** X6. [getBranches] never throws. Every name it gives is non-empty and
    trimmed, and when the command fails (or there is no workspace folder)
    it gives the empty list. *)
Theorem branches_are_clean_names (env : Env) (w : World) :
  exists names,
    fst (GitService.getBranches env w) = Ok names
    /\ Forall (fun b => Js.truthy b = true /\ Js.trim b = b) names
    /\ ((GitService.no_root env = true
         \/ succeeds env (cmds w) branch_cmd = false) -> names = []).
Proof.
  unfold GitService.getBranches, try_catch, bind, GitService.exec, succeeds.
  fold branch_cmd.
  destruct (GitService.no_root env).
  { exists []. simpl. repeat split; auto. }
  destruct (cp_exec env (cmds w) branch_cmd) as [out|e m].
  - eexists. split; [reflexivity|]. split.
    + apply Forall_forall. intros b Hb.
      apply filter_In in Hb. destruct Hb as [Hin Ht].
      split; [exact Ht|].
      apply in_map_iff in Hin. destruct Hin as (x & <- & _).
      apply trim_idempotent.
    + intros [H|H]; discriminate H.
  - exists []. simpl. repeat split; auto.
Qed.

(** ** The token update *)

(** X7. [updateRemoteUrlWithToken] never throws: it resolves with one of
    its three texts. It runs at most two commands, the query for the
    address first, and it reports the update only after a second command,
    a [set-url] of [origin], has succeeded. *)
Theorem token_update_never_throws (env : Env) (token : string) (w : World) :
  exists text l,
    GitService.updateRemoteUrlWithToken env token w =
      (Ok text,
       mkWorld (cmds w ++ l) (notes w) (view w) (currentUser w)
               (githubPat w) (apiKey w))
    /\ In text [ "Remote URL updated with token";
                 "Remote URL is not HTTPS, skipping token update";
                 "Failed to update remote URL" ]
    /\ (l = [] \/ l = [get_url_cmd]
        \/ exists newUrl, l = [get_url_cmd; set_url_cmd newUrl])
    /\ (text = "Remote URL updated with token" ->
        exists newUrl,
          l = [get_url_cmd; set_url_cmd newUrl]
          /\ succeeds env (cmds w ++ [get_url_cmd]) (set_url_cmd newUrl) = true).
Proof.
  unfold GitService.updateRemoteUrlWithToken, try_catch, bind, GitService.exec.
  fold get_url_cmd.
  destruct (GitService.no_root env).
  { exists "Failed to update remote URL", []. destruct w; simpl.
    rewrite app_nil_r.
    repeat split; [tauto | tauto | discriminate]. }
  destruct (cp_exec env (cmds w) get_url_cmd) as [out|e m].
  2:{ exists "Failed to update remote URL", [get_url_cmd].
      repeat split; [simpl; tauto | tauto | discriminate]. }
  destruct (Js.startsWith (Js.trim out) "https://").
  2:{ exists "Remote URL is not HTTPS, skipping token update", [get_url_cmd].
      repeat split; [simpl; tauto | tauto | discriminate]. }
  set (newUrl := Js.replace (Js.strip_auth (Js.trim out)) "https://"
                   ("https://" ++ token ++ "@")).
  fold (set_url_cmd newUrl). unfold succeeds. simpl cmds.
  destruct (cp_exec env (cmds w ++ [get_url_cmd]) (set_url_cmd newUrl))
    as [o2|e2 m2] eqn:E2.
  - exists "Remote URL updated with token", [get_url_cmd; set_url_cmd newUrl].
    unfold run_cmd. simpl. rewrite <- app_assoc. simpl.
    repeat split; [tauto | eauto | ].
    intros _. exists newUrl. rewrite E2. split; reflexivity.
  - exists "Failed to update remote URL", [get_url_cmd; set_url_cmd newUrl].
    unfold run_cmd. simpl. rewrite <- app_assoc. simpl.
    repeat split; [tauto | eauto | discriminate].
Qed.

Lemma branches_are_clean_names_witness :
  fst (GitService.getBranches Sample.failing_git Sample.w0) = Ok [].
Proof.
  destruct (branches_are_clean_names Sample.failing_git Sample.w0)
    as (names & H & _ & Hnil).
  rewrite H. rewrite (Hnil (or_intror eq_refl)). reflexivity.
Defined.

Lemma token_update_never_throws_witness :
  exists newUrl,
    succeeds (Sample.with_origin "https://host/org/repo.git")
      [get_url_cmd] (set_url_cmd newUrl) = true.
Proof.
  destruct (token_update_never_throws
              (Sample.with_origin "https://host/org/repo.git") "X" Sample.w0)
    as (text & l & Heq & _ & _ & Hup).
  assert (Ht : text = "Remote URL updated with token").
  { vm_compute in Heq. injection Heq as <- _. reflexivity. }
  destruct (Hup Ht) as (newUrl & _ & Hs).
  exists newUrl. exact Hs.
Defined.

(** * Further properties of the dispatcher *)

Lemma dispatch_single_command
    (env : Env) (action c : string)
    (payload : option SidebarProvider.Payload) (w : World) :
  single_command action payload = Some c ->
  SidebarProvider.dispatch env action payload w = GitService.exec env c w.
Proof.
  unfold single_command, SidebarProvider.dispatch.
  destruct (action =? "status") eqn:E0.
  { apply String.eqb_eq in E0. subst action. discriminate. }
  repeat match goal with
         | |- context [String.eqb action ?k] =>
             destruct (String.eqb_spec action k) as [->|_]
         end;
    simpl; try discriminate;
    try (intros H; injection H as <-; reflexivity);
    match goal with
    | |- context [SidebarProvider.field ?f payload] =>
        destruct (SidebarProvider.field f payload); simpl;
        [intros H; injection H as <-; reflexivity | discriminate]
    end.
Qed.

(** X8. For an action that is one facade call (push, pull, fetch, stash,
    and with their field present commit and the four branch actions; the
    branch is deleted with [-D]), a failing command is reported once: the
    command has run, the error message is [Git <action> failed: ]
    followed by what git wrote to its error output, or by the error of
    the process when that is empty, and nothing follows, no refresh
    either. *)
Theorem failed_command_is_reported_once
    (env : Env) (action c stderr msg : string)
    (payload : option SidebarProvider.Payload) (w : World) :
  GitService.no_root env = false ->
  single_command action payload = Some c ->
  cp_exec env (cmds w) c = ExecErr stderr msg ->
  SidebarProvider.handleGitAction env action payload w =
    (Ok tt,
     emit (ErrorMessage
             ("Git " ++ action ++ " failed: "
                ++ (if Js.truthy stderr then stderr else msg)))
          (run_cmd c w)).
Proof.
  intros Hroot Hc Hfail.
  apply handleGitAction_throw.
  rewrite (dispatch_single_command env action c payload w Hc).
  rewrite (exec_root env _ _ Hroot), Hfail. reflexivity.
Qed.

Lemma failed_command_is_reported_once_witness :
  SidebarProvider.handleGitAction Sample.failing_git "delete-branch"
      (Some (SidebarProvider.mkPayload None None (Some "topic"))) Sample.w0 =
    (Ok tt,
     mkWorld ["git branch -D topic"]
             [ErrorMessage "Git delete-branch failed: fatal"]
             true None None None).
Proof.
  exact (failed_command_is_reported_once Sample.failing_git "delete-branch"
           "git branch -D topic" "fatal" "exit 128"
           (Some (SidebarProvider.mkPayload None None (Some "topic")))
           Sample.w0 eq_refl eq_refl eq_refl).
Defined.

(** X9. The status action is never reported as failed: whatever git
    does, [getStatus] resolves, so the dispatcher shows
    [Git status success: ...] (with [Error getting status] as the result
    when the command failed), shows no error message, and goes on to the
    refresh: after the status command the four queries of the refresh
    are run, and with a view attached and the user cached or the secret
    store readable the last notification is [update-stats]. *)
Theorem status_action_never_fails
    (env : Env) (payload : option SidebarProvider.Payload) (w : World) :
  exists result l,
    let w' := snd (SidebarProvider.handleGitAction env "status" payload w) in
    SidebarProvider.handleGitAction env "status" payload w =
      (Ok tt,
       snd (SidebarProvider.refreshStats env
              (emit (InfoMessage ("Git status success: " ++ result))
                    (after env [status_cmd] w))))
    /\ cmds w' =
         (cmds w ++ (if GitService.no_root env then []
                     else status_cmd :: refresh_queries))%list
    /\ notes w' =
         (notes w ++ InfoMessage ("Git status success: " ++ result) :: l)%list
    /\ Forall (fun n => is_error_message n = false) l
    /\ (view w = true ->
        currentUser w <> None \/ secrets_available env = true ->
        exists l' branch remote status repoName user,
          l = (l' ++ [UpdateStats branch remote status repoName
                        (repo_path env) user])%list)
    /\ (GitService.no_root env = false ->
        succeeds env (cmds w) status_cmd = false ->
        result = "Error getting status").
Proof.
  destruct (getStatus_total env w) as [result Hs].
  assert (Hd : SidebarProvider.dispatch env "status" payload w =
               (Ok result, after env [status_cmd] w)) by exact Hs.
  pose proof (handleGitAction_ok env _ _ _ _ _ Hd) as Hh.
  change ("Git " ++ "status" ++ " success: " ++ result)
    with ("Git status success: " ++ result) in Hh.
  assert (An : notes (after env [status_cmd] w) = notes w)
    by (unfold after; destruct (GitService.no_root env); reflexivity).
  assert (Av : view (after env [status_cmd] w) = view w)
    by (unfold after; destruct (GitService.no_root env); reflexivity).
  assert (Au : currentUser (after env [status_cmd] w) = currentUser w)
    by (unfold after; destruct (GitService.no_root env); reflexivity).
  destruct (refreshStats_effect env
              (emit (InfoMessage ("Git status success: " ++ result))
                    (after env [status_cmd] w)))
    as (l & _ & Hc & Hn & Hf & Hu).
  exists result, l. cbv zeta. rewrite Hh.
  change (snd (Ok tt, ?x)) with x.
  split; [reflexivity|]. split; [|split; [|split; [|split]]].
  - rewrite Hc. simpl cmds. unfold after.
    destruct (GitService.no_root env); simpl.
    + rewrite app_nil_r. reflexivity.
    + rewrite <- app_assoc. reflexivity.
  - rewrite Hn. simpl notes. rewrite An, <- app_assoc. reflexivity.
  - exact Hf.
  - intros Hv Hcu.
    destruct Hu as (l' & b & r & s & n & u & -> & _).
    + simpl. rewrite Av. exact Hv.
    + simpl. rewrite Au. exact Hcu.
    + eauto 7.
  - intros Hroot Hfail.
    unfold GitService.getStatus in Hs. rewrite Hroot in Hs.
    unfold try_catch, bind in Hs. fold status_cmd in Hs.
    rewrite (exec_root env _ _ Hroot) in Hs.
    unfold succeeds in Hfail.
    destruct (cp_exec env (cmds w) status_cmd); [discriminate Hfail|].
    injection Hs as <-. reflexivity.
Qed.

Lemma status_action_never_fails_witness :
  exists l,
    notes (snd (SidebarProvider.handleGitAction Sample.failing_git "status"
                  None Sample.w0)) =
      InfoMessage "Git status success: Error getting status" :: l
    /\ cmds (snd (SidebarProvider.handleGitAction Sample.failing_git "status"
                    None Sample.w0)) =
         status_cmd :: refresh_queries.
Proof.
  destruct (status_action_never_fails Sample.failing_git None Sample.w0)
    as (result & l & _ & Hc & Hn & _ & _ & Hr).
  rewrite (Hr eq_refl eq_refl) in Hn.
  exists l. split; [exact Hn | exact Hc].
Defined.

(** * Further properties of the polling loop *)

(** X10. The loop ends with the first terminal response (a token, a
    transport error, or an error other than [authorization_pending] and
    [slow_down]): whatever the server would answer afterwards is never
    asked for. *)
Theorem polling_stops_at_first_terminal
    (interval0 : Z) (before after : list AuthService.HttpOutcome)
    (o : AuthService.HttpOutcome) :
  terminal interval0 o = true ->
  AuthService.pollForToken interval0 (before ++ o :: after) =
    AuthService.pollForToken interval0 (before ++ [o]).
Proof.
  intros Ht. induction before as [|b rest IH].
  - unfold terminal in Ht. simpl.
    destruct (AuthService.poll_body interval0 o);
      [reflexivity | discriminate Ht | reflexivity].
  - simpl. destruct (AuthService.poll_body interval0 b); try reflexivity.
    rewrite IH. reflexivity.
Qed.

Lemma polling_stops_at_first_terminal_witness :
  AuthService.pollForToken 5
      [AuthService.pending; AuthService.granted "T"; AuthService.pending] =
    AuthService.pollForToken 5 [AuthService.pending; AuthService.granted "T"].
Proof.
  exact (polling_stops_at_first_terminal 5 [AuthService.pending]
           [AuthService.pending] (AuthService.granted "T") eq_refl).
Defined.

(** X11. The loop has no bound of its own: as long as every response is
    [authorization_pending] or [slow_down] it stays pending, with one
    request and one timer per response; nothing in it looks at the time
    the device code expires. *)
Theorem polling_never_gives_up
    (interval0 : Z) (outcomes : list AuthService.HttpOutcome) :
  Forall (fun o => terminal interval0 o = false) outcomes ->
  snd (AuthService.pollForToken interval0 outcomes) = None
  /\ count_requests (fst (AuthService.pollForToken interval0 outcomes)) =
       List.length outcomes
  /\ List.length
       (AuthService.waits (fst (AuthService.pollForToken interval0 outcomes))) =
       List.length outcomes.
Proof.
  induction 1 as [|o rest Ho _ IH]; [repeat split|].
  unfold terminal in Ho.
  destruct (AuthService.poll_body interval0 o) as [t|ms|e] eqn:Hb;
    try discriminate Ho.
  rewrite (pollForToken_reschedule _ _ _ _ Hb). simpl.
  destruct IH as (H1 & H2 & H3). rewrite H1, H2, H3. repeat split.
Qed.

Lemma polling_never_gives_up_witness :
  snd (AuthService.pollForToken 5
         [AuthService.pending; AuthService.slow_down 10; AuthService.pending])
    = None.
Proof.
  apply (polling_never_gives_up 5
           [AuthService.pending; AuthService.slow_down 10;
            AuthService.pending]).
  repeat constructor.
Defined.

Lemma pollForToken_pending (interval0 : Z)
    (rest : list AuthService.HttpOutcome) :
  AuthService.pollForToken interval0 (AuthService.pending :: rest) =
    (AuthService.TokenRequest ::
       AuthService.Wait (AuthService.timer_ms (Some interval0)) ::
       fst (AuthService.pollForToken interval0 rest),
     snd (AuthService.pollForToken interval0 rest)).
Proof. apply pollForToken_reschedule. reflexivity. Qed.

(** X12. After [n] responses [authorization_pending] and then a response
    with a non-empty token, the flow resolves with that token, after
    [n + 1] requests and [n] timers, each of (interval + 1) * 1000
    milliseconds for the first interval: the product of doubles, which
    is the exact one, interval + 1 seconds, for an interval from 0 on
    whose product is below 2^53. *)
Theorem pending_then_token_resolves
    (interval0 : Z) (n : nat) (t : string)
    (rest : list AuthService.HttpOutcome) :
  Js.truthy t = true ->
  let run :=
    AuthService.pollForToken interval0
      (repeat AuthService.pending n ++ AuthService.granted t :: rest) in
  snd run = Some (AuthService.Resolved t)
  /\ count_requests (fst run) = S n
  /\ AuthService.waits (fst run) =
       repeat (AuthService.timer_ms (Some interval0)) n
  /\ ((0 <= interval0)%Z -> ((interval0 + 1) * 1000 < 9007199254740992)%Z ->
      AuthService.waits (fst run) =
        repeat (Some ((interval0 + 1) * 1000)%Z) n).
Proof.
  intros Ht. cbv zeta.
  assert (H : snd (AuthService.pollForToken interval0
                     (repeat AuthService.pending n
                        ++ AuthService.granted t :: rest)) =
              Some (AuthService.Resolved t)
              /\ count_requests
                   (fst (AuthService.pollForToken interval0
                           (repeat AuthService.pending n
                              ++ AuthService.granted t :: rest))) = S n
              /\ AuthService.waits
                   (fst (AuthService.pollForToken interval0
                           (repeat AuthService.pending n
                              ++ AuthService.granted t :: rest))) =
                   repeat (AuthService.timer_ms (Some interval0)) n).
  { induction n as [|n IH].
    - simpl. rewrite Ht. repeat split.
    - change (repeat AuthService.pending (S n)
                ++ AuthService.granted t :: rest)%list
        with (AuthService.pending ::
                (repeat AuthService.pending n
                   ++ AuthService.granted t :: rest))%list.
      rewrite pollForToken_pending.
      destruct IH as (H1 & H2 & H3). simpl. rewrite H1, H2, H3.
      repeat split. }
  destruct H as (H1 & H2 & H3).
  split; [exact H1|]. split; [exact H2|]. split; [exact H3|].
  intros H0 Hlt. rewrite H3, (timer_ms_exact interval0 H0 Hlt). reflexivity.
Qed.

Lemma pending_then_token_resolves_witness :
  AuthService.waits
    (fst (AuthService.pollForToken 5
            [AuthService.pending; AuthService.pending;
             AuthService.granted "T"])) =
    [Some 6000%Z; Some 6000%Z].
Proof.
  destruct (pending_then_token_resolves 5 2 "T" [] eq_refl)
    as (_ & _ & _ & H).
  apply H; lia.
Defined.

(** * Further properties of the login *)

Section LoginFacts.

Variable env : Env.

Lemma nth_error_set_nth_twice {A} (l : list A) (i : nat) (x y : A) :
  SidebarProvider.set_nth i x (SidebarProvider.set_nth i y l) =
    SidebarProvider.set_nth i x l.
Proof.
  revert i. induction l as [|h t IH]; intros [|i]; simpl;
    try reflexivity.
  rewrite IH. reflexivity.
Qed.

(** A loop that has settled takes no further part: a late response and a
    late timer change nothing. *)
Lemma settled_flow_ignores
    (s : SidebarProvider.Session) (i : nat) (dc : string) (iv : Z)
    (st : AuthService.Settled) (ev : SidebarProvider.Event) :
  nth_error (SidebarProvider.flows s) i =
    Some (SidebarProvider.mkFlow dc iv (SidebarProvider.Done st)) ->
  of_flow i ev = true ->
  SidebarProvider.step env ev s = s.
Proof.
  intros Hf Hev. destruct ev as [o|j o|j]; simpl in Hev; try discriminate;
    apply Nat.eqb_eq in Hev; subst j; simpl; rewrite Hf; reflexivity.
Qed.

Lemma run_drive_cons
    (o : AuthService.HttpOutcome) (rest : list AuthService.HttpOutcome)
    (i : nat) (s : SidebarProvider.Session) :
  SidebarProvider.run env (drive i (o :: rest)) s =
    SidebarProvider.run env (drive i rest)
      (SidebarProvider.step env (SidebarProvider.TimerFires i)
         (SidebarProvider.step env (SidebarProvider.Response i o) s)).
Proof. reflexivity. Qed.

Lemma settled_flow_ignores_drive
    (outcomes : list AuthService.HttpOutcome)
    (s : SidebarProvider.Session) (i : nat) (dc : string) (iv : Z)
    (st : AuthService.Settled) :
  nth_error (SidebarProvider.flows s) i =
    Some (SidebarProvider.mkFlow dc iv (SidebarProvider.Done st)) ->
  SidebarProvider.run env (drive i outcomes) s = s.
Proof.
  intros Hf. induction outcomes as [|o rest IH]; [reflexivity|].
  rewrite run_drive_cons.
  rewrite (settled_flow_ignores s i dc iv st _ Hf)
    by (simpl; apply Nat.eqb_refl).
  rewrite (settled_flow_ignores s i dc iv st _ Hf)
    by (simpl; apply Nat.eqb_refl).
  exact IH.
Qed.

End LoginFacts.

(** X13. The event loop and [pollForToken] agree. Taking one pending
    loop through a list of responses, each followed by the firing of its
    timer, leaves the loop settled as [pollForToken] settles on these
    responses (or still awaiting a response), has sent one further token
    request per timer of [pollForToken], and has run the login's
    continuation exactly when and as the promise settled. Responses that
    come after the loop has settled change nothing. *)
Theorem event_loop_agrees_with_pollForToken
    (env : Env) (outcomes : list AuthService.HttpOutcome)
    (s : SidebarProvider.Session) (i : nat) (dc : string) (iv : Z) :
  nth_error (SidebarProvider.flows s) i =
    Some (SidebarProvider.mkFlow dc iv SidebarProvider.AwaitingResponse) ->
  let s' := SidebarProvider.run env (drive i outcomes) s in
  let p := AuthService.pollForToken iv outcomes in
  flow_state s' i =
    Some (match snd p with
          | Some st => SidebarProvider.Done st
          | None => SidebarProvider.AwaitingResponse
          end)
  /\ SidebarProvider.token_requests s' =
       (SidebarProvider.token_requests s
          ++ repeat dc (List.length (AuthService.waits (fst p))))%list
  /\ SidebarProvider.world s' =
       match snd p with
       | Some st => snd (SidebarProvider.after_poll env st
                           (SidebarProvider.world s))
       | None => SidebarProvider.world s
       end.
Proof.
  cbv zeta. revert s.
  induction outcomes as [|o rest IH]; intros s Hf.
  - simpl. unfold flow_state. rewrite Hf. rewrite app_nil_r. repeat split.
  - rewrite run_drive_cons.
    destruct (AuthService.poll_body iv o) as [t|ms|e] eqn:Hb.
    + rewrite (pollForToken_resolve _ _ _ _ Hb).
      set (s1 := SidebarProvider.step env (SidebarProvider.Response i o) s).
      assert (Hs1 : s1 =
                SidebarProvider.mkSession
                  (snd (SidebarProvider.after_poll env (AuthService.Resolved t)
                          (SidebarProvider.world s)))
                  (SidebarProvider.set_nth i
                     (SidebarProvider.mkFlow dc iv
                        (SidebarProvider.Done (AuthService.Resolved t)))
                     (SidebarProvider.flows s))
                  (SidebarProvider.token_requests s)).
      { unfold s1. simpl. rewrite Hf, Hb. reflexivity. }
      assert (Hf1 : nth_error (SidebarProvider.flows s1) i =
                Some (SidebarProvider.mkFlow dc iv
                        (SidebarProvider.Done (AuthService.Resolved t)))).
      { rewrite Hs1. simpl. apply (nth_error_set_nth_same _ _ _ _ Hf). }
      rewrite (settled_flow_ignores env s1 i dc iv _ _ Hf1)
        by (simpl; apply Nat.eqb_refl).
      rewrite (settled_flow_ignores_drive env rest s1 i dc iv _ Hf1).
      unfold flow_state. rewrite Hf1. simpl. rewrite app_nil_r.
      rewrite Hs1. repeat split.
    + rewrite (pollForToken_reschedule _ _ _ _ Hb).
      set (s2 := SidebarProvider.step env (SidebarProvider.TimerFires i)
                   (SidebarProvider.step env (SidebarProvider.Response i o) s)).
      assert (Hs2 : s2 =
                SidebarProvider.mkSession (SidebarProvider.world s)
                  (SidebarProvider.set_nth i
                     (SidebarProvider.mkFlow dc iv
                        SidebarProvider.AwaitingResponse)
                     (SidebarProvider.flows s))
                  (SidebarProvider.token_requests s ++ [dc])).
      { unfold s2. simpl. rewrite Hf, Hb. simpl.
        rewrite (nth_error_set_nth_same _ _ _ _ Hf).
        rewrite nth_error_set_nth_twice. reflexivity. }
      assert (Hf2 : nth_error (SidebarProvider.flows s2) i =
                Some (SidebarProvider.mkFlow dc iv
                        SidebarProvider.AwaitingResponse)).
      { rewrite Hs2. simpl. apply (nth_error_set_nth_same _ _ _ _ Hf). }
      destruct (IH s2 Hf2) as (H1 & H2 & H3).
      simpl fst. simpl snd. simpl AuthService.waits. simpl List.length.
      split; [exact H1|]. split.
      * rewrite H2, Hs2. simpl. rewrite <- app_assoc. reflexivity.
      * rewrite H3, Hs2. reflexivity.
    + rewrite (pollForToken_reject _ _ _ _ Hb).
      set (s1 := SidebarProvider.step env (SidebarProvider.Response i o) s).
      assert (Hs1 : s1 =
                SidebarProvider.mkSession
                  (snd (SidebarProvider.after_poll env (AuthService.Rejected e)
                          (SidebarProvider.world s)))
                  (SidebarProvider.set_nth i
                     (SidebarProvider.mkFlow dc iv
                        (SidebarProvider.Done (AuthService.Rejected e)))
                     (SidebarProvider.flows s))
                  (SidebarProvider.token_requests s)).
      { unfold s1. simpl. rewrite Hf, Hb. reflexivity. }
      assert (Hf1 : nth_error (SidebarProvider.flows s1) i =
                Some (SidebarProvider.mkFlow dc iv
                        (SidebarProvider.Done (AuthService.Rejected e)))).
      { rewrite Hs1. simpl. apply (nth_error_set_nth_same _ _ _ _ Hf). }
      rewrite (settled_flow_ignores env s1 i dc iv _ _ Hf1)
        by (simpl; apply Nat.eqb_refl).
      rewrite (settled_flow_ignores_drive env rest s1 i dc iv _ Hf1).
      unfold flow_state. rewrite Hf1. simpl. rewrite app_nil_r.
      rewrite Hs1. repeat split.
Qed.

Lemma event_loop_agrees_with_pollForToken_witness :
  SidebarProvider.token_requests
    (SidebarProvider.run Sample.quiet_git
       (drive 0 [AuthService.pending; AuthService.granted "T";
                 AuthService.pending])
       (SidebarProvider.step Sample.quiet_git (Sample_login "device-A")
          Sample_session)) =
    ["device-A"; "device-A"].
Proof.
  destruct (event_loop_agrees_with_pollForToken Sample.quiet_git
              [AuthService.pending; AuthService.granted "T";
               AuthService.pending]
              (SidebarProvider.step Sample.quiet_git (Sample_login "device-A")
                 Sample_session) 0 "device-A" 5 eq_refl)
    as (_ & H & _).
  exact H.
Defined.

(** * Further properties of the provider *)

Section ProviderFacts.

Variable env : Env.

Lemma same_secrets_refl (w : World) : same_secrets w w.
Proof. repeat split. Qed.

Lemma same_secrets_trans (w1 w2 w3 : World) :
  same_secrets w1 w2 -> same_secrets w2 w3 -> same_secrets w1 w3.
Proof.
  intros (A1 & A2 & A3) (B1 & B2 & B3).
  repeat split; congruence.
Qed.

Lemma same_secrets_after (q : list string) (w : World) :
  same_secrets w (after env q w).
Proof.
  unfold after, same_secrets. destruct (GitService.no_root env);
    repeat split.
Qed.

Lemma refreshStats_split (w : World) :
  exists b r s n,
    SidebarProvider.refreshStats env w =
      refresh_tail env b r s n (after env refresh_queries w).
Proof.
  destruct (getCurrentBranch_total env w) as [b Hb].
  destruct (getRemote_total env
              (after env ["git rev-parse --abbrev-ref HEAD"] w)) as [r Hr].
  destruct (getStatus_total env
              (after env ["git remote -v"]
                 (after env ["git rev-parse --abbrev-ref HEAD"] w)))
    as [s Hs].
  destruct (getRepoName_total env
              (after env ["git status --short"]
                 (after env ["git remote -v"]
                    (after env ["git rev-parse --abbrev-ref HEAD"] w))))
    as [n Hn].
  exists b, r, s, n.
  unfold SidebarProvider.refreshStats, refresh_tail, try_catch.
  rewrite (bind_ok _ _ _ _ _ Hb), (bind_ok _ _ _ _ _ Hr),
    (bind_ok _ _ _ _ _ Hs), (bind_ok _ _ _ _ _ Hn).
  rewrite !after_after. reflexivity.
Qed.

Lemma resolve_user_secrets (w : World) :
  same_secrets w (snd (SidebarProvider.resolve_user env w)).
Proof.
  unfold SidebarProvider.resolve_user, SidebarProvider.secrets_get, bind.
  destruct (secrets_available env); [|apply same_secrets_refl].
  destruct (githubPat w) as [t|] eqn:Hp; simpl.
  - destruct (Js.truthy t); simpl.
    + destruct (getUserProfile env t); simpl.
      * repeat split; simpl; auto.
      * destruct (currentUser w), (getSession env); repeat split; simpl; auto.
    + destruct (currentUser w), (getSession env); repeat split; simpl; auto.
  - destruct (currentUser w), (getSession env); repeat split; simpl; auto.
Qed.

Lemma refresh_tail_secrets (b r s n : string) (w : World) :
  same_secrets w (snd (refresh_tail env b r s n w)).
Proof.
  unfold refresh_tail, try_catch, bind, get_world.
  destruct (currentUser w) as [u|].
  - unfold ret, SidebarProvider.postMessage. simpl.
    destruct (view w); repeat split.
  - pose proof (resolve_user_secrets w) as Hs.
    destruct (SidebarProvider.resolve_user env w) as [[u|e] w1]; simpl in *.
    + unfold SidebarProvider.postMessage.
      destruct Hs as (H1 & H2 & H3).
      destruct (view w1) eqn:E; unfold same_secrets, emit; simpl;
        repeat split; congruence.
    + exact Hs.
Qed.

(** A refresh leaves the stored secrets and the view alone. *)
Lemma refreshStats_secrets (w : World) :
  same_secrets w (snd (SidebarProvider.refreshStats env w)).
Proof.
  destruct (refreshStats_split w) as (b & r & s & n & ->).
  eapply same_secrets_trans; [apply same_secrets_after|].
  apply refresh_tail_secrets.
Qed.

End ProviderFacts.

(** X14. Logging out, with the secret store working, removes the stored
    token and the cached user, shows [Logged out from GitHub.] and then
    sends the view to the setup screen, whether or not an API key is
    stored; it runs no git command and starts no refresh. *)
Theorem logout_returns_to_setup (env : Env) (w : World) :
  secrets_available env = true ->
  SidebarSettings.logout env w =
    (Ok tt,
     mkWorld (cmds w)
             (notes w ++ InfoMessage "Logged out from GitHub."
                :: (if view w then [ShowSetup] else []))
             (view w) None None (apiKey w)).
Proof.
  intros Hs.
  unfold SidebarSettings.logout, SidebarSettings.secrets_delete_pat, bind,
    modify, spawn, SidebarProvider.showInformationMessage,
    SidebarProvider.checkAuth, SidebarProvider.secrets_get,
    SidebarProvider.postMessage.
  rewrite Hs. simpl. unfold bind. simpl.
  rewrite orb_true_r. simpl.
  destruct (view w) eqn:Hv; unfold emit; simpl; rewrite ?Hv.
  - rewrite <- app_assoc. reflexivity.
  - reflexivity.
Qed.

Lemma logout_returns_to_setup_witness :
  SidebarSettings.logout Sample.quiet_git
      (mkWorld [] [] true (Some SidebarProvider.guest) (Some "T") (Some "K")) =
    (Ok tt,
     mkWorld [] [InfoMessage "Logged out from GitHub."; ShowSetup]
             true None None (Some "K")).
Proof.
  exact (logout_returns_to_setup Sample.quiet_git
           (mkWorld [] [] true (Some SidebarProvider.guest) (Some "T")
                    (Some "K")) eq_refl).
Defined.

Section ProviderFacts2.

Variable env : Env.



(** [checkAuth] with the secret store working: it resolves, leaves the
    secrets alone and shows no error message. *)
Lemma checkAuth_effect (w : World) :
  secrets_available env = true ->
  same_secrets w (snd (SidebarProvider.checkAuth env w))
  /\ exists l,
       notes (snd (SidebarProvider.checkAuth env w)) = (notes w ++ l)%list
       /\ Forall (fun n => is_error_message n = false) l.
Proof.
  intros Hs.
  unfold SidebarProvider.checkAuth, SidebarProvider.secrets_get, bind.
  rewrite Hs.
  destruct (negb (Js.truthy_opt (apiKey w))
            || negb (Js.truthy_opt (githubPat w))).
  - unfold SidebarProvider.postMessage. simpl.
    destruct (view w) eqn:Hv.
    + split; [repeat split; simpl; auto|].
      exists [ShowSetup]. split; [reflexivity | repeat constructor].
    + split; [apply same_secrets_refl|].
      exists []. rewrite app_nil_r. split; [reflexivity | constructor].
  - unfold SidebarProvider.postMessage, spawn. simpl.
    set (w1 := if view w then emit ShowDashboard w else w).
    assert (H1 : same_secrets w w1)
      by (unfold w1; destruct (view w) eqn:Hv; repeat split; simpl; auto).
    assert (Hn1 : exists l1, notes w1 = (notes w ++ l1)%list
                             /\ Forall (fun n => is_error_message n = false) l1).
    { unfold w1. destruct (view w).
      - exists [ShowDashboard]. split; [reflexivity | repeat constructor].
      - exists []. rewrite app_nil_r. split; [reflexivity | constructor]. }
    destruct Hn1 as (l1 & Hn1 & Hf1).
    destruct (refreshStats_effect env w1) as (l2 & _ & _ & Hn2 & Hf2 & _).
    split.
    + eapply same_secrets_trans; [exact H1 | apply refreshStats_secrets].
    + exists (l1 ++ l2)%list. rewrite Hn2, Hn1, app_assoc.
      split; [reflexivity | apply Forall_app; split; assumption].
Qed.

(** The token update changes the command log at most. *)
Lemma token_update_frame (token : string) (w : World) :
  exists text l,
    GitService.updateRemoteUrlWithToken env token w =
      (Ok text,
       mkWorld (cmds w ++ l) (notes w) (view w) (currentUser w)
               (githubPat w) (apiKey w)).
Proof.
  unfold GitService.updateRemoteUrlWithToken, try_catch, bind, GitService.exec.
  destruct (GitService.no_root env).
  { exists "Failed to update remote URL", []. destruct w; simpl.
    rewrite app_nil_r. reflexivity. }
  destruct (cp_exec env (cmds w) _) as [out|e m].
  2:{ eexists _, [_]. reflexivity. }
  destruct (Js.startsWith (Js.trim out) "https://").
  2:{ eexists _, [_]. reflexivity. }
  simpl cmds.
  destruct (cp_exec env _ _) as [o2|e2 m2];
    eexists _, [_; _]; unfold run_cmd; simpl; rewrite <- app_assoc;
    reflexivity.
Qed.

End ProviderFacts2.

(** X15. When the polling loop resolves with a token and the secret store
    works, the login resolves too, stores the token as the GitHub token
    and shows [Successfully logged in with GitHub!]; it does so whether
    or not the update of the remote and the fetch of the profile succeed,
    shows no error message, and leaves the API key alone. *)
Theorem login_success_stores_token (env : Env) (t : string) (w : World) :
  secrets_available env = true ->
  Js.truthy t = true ->
  let r := SidebarProvider.after_poll env (AuthService.Resolved t) w in
  fst r = Ok tt
  /\ githubPat (snd r) = Some t
  /\ apiKey (snd r) = apiKey w
  /\ exists l,
       notes (snd r) =
         (notes w ++ InfoMessage "Successfully logged in with GitHub!" :: l)%list
       /\ Forall (fun n => is_error_message n = false) l.
Proof.
  intros Hs Ht.
  pose (w2 := emit (InfoMessage "Successfully logged in with GitHub!")
                (set_pat (Some t) w)).
  destruct (token_update_frame env t w2) as (text & l3 & Hup).
  pose (w3 := mkWorld (cmds w2 ++ l3) (notes w2) (view w2) (currentUser w2)
                (githubPat w2) (apiKey w2)).
  pose (w4 := match getUserProfile env t with
              | Some profile =>
                  set_user (Some (SidebarProvider.profile_user profile)) w3
              | None => emit (ConsoleError "Failed to fetch profile") w3
              end).
  assert (Heq : SidebarProvider.after_poll env (AuthService.Resolved t) w =
                (Ok tt, snd (SidebarProvider.checkAuth env w4))).
  { unfold SidebarProvider.after_poll, try_catch,
      SidebarProvider.login_succeeded.
    rewrite Ht.
    unfold bind, SidebarProvider.secrets_store_pat,
      SidebarProvider.showInformationMessage, modify.
    rewrite Hs. cbv beta iota. fold w2. rewrite Hup. cbv beta iota.
    fold w3. unfold w4, spawn, SidebarProvider.console_error, modify.
    destruct (getUserProfile env t); reflexivity. }
  assert (F4 : githubPat w4 = Some t /\ apiKey w4 = apiKey w
               /\ exists l4, notes w4 = (notes w2 ++ l4)%list
                             /\ Forall (fun n => is_error_message n = false) l4).
  { unfold w4. destruct (getUserProfile env t); simpl.
    - repeat split. exists []. rewrite app_nil_r.
      split; [reflexivity | constructor].
    - repeat split. eexists [_]. split; [reflexivity | repeat constructor]. }
  destruct F4 as (P4 & K4 & l4 & N4 & E4).
  destruct (checkAuth_effect env w4 Hs) as ((P5 & K5 & _) & l5 & N5 & E5).
  cbv zeta. rewrite Heq.
  change (fst (Ok tt, ?x)) with (@Ok unit tt).
  change (snd (Ok tt, ?x)) with x.
  split; [reflexivity|]. split; [congruence|]. split; [congruence|].
  exists (l4 ++ l5)%list. rewrite N5, N4. unfold w2. simpl notes.
  rewrite <- !app_assoc. split; [reflexivity|].
  apply Forall_app. split; assumption.
Qed.

Lemma login_success_stores_token_witness :
  githubPat
    (snd (SidebarProvider.after_poll Sample.quiet_git (AuthService.Resolved "T")
            Sample.w0)) = Some "T".
Proof.
  apply (login_success_stores_token Sample.quiet_git "T" Sample.w0);
    reflexivity.
Defined.







(** * Properties of the profile fetch *)

(** X18. The email lookup of [getUserProfile] is best effort. When the
    first query fails or reports errors, the call throws (with the first
    error's message) and no second request is made. When it gives a
    viewer, the call always resolves, with the viewer changed in its
    email at most: a viewer that has an email is returned as it is after
    that one request, and only for a viewer without one the email
    endpoint is asked, whose failure is written to the console and
    nothing more. *)
Theorem profile_email_lookup_is_best_effort
    (graphql : string -> AuthProfile.GraphqlOutcome)
    (user_emails : string -> AuthProfile.EmailsOutcome) (token : string) :
  let run := AuthProfile.getUserProfile graphql user_emails token in
  (forall viewer,
     graphql token = AuthProfile.GraphqlViewer viewer ->
     (exists e,
        AuthProfile.result run = Ok (AuthProfile.with_email viewer e))
     /\ AuthProfile.requests run =
          AuthProfile.graphql_url ::
            (if Js.truthy_opt (p_email viewer) then []
             else [AuthProfile.emails_url])
     /\ (Js.truthy_opt (p_email viewer) = true ->
         AuthProfile.result run = Ok viewer)
     /\ (forall m,
           Js.truthy_opt (p_email viewer) = false ->
           user_emails token = AuthProfile.EmailsThrows m ->
           AuthProfile.result run = Ok viewer
           /\ AuthProfile.console run = ["Failed to fetch emails via REST"]))
  /\ (forall m,
        (graphql token = AuthProfile.GraphqlThrows m
         \/ graphql token = AuthProfile.GraphqlErrors m) ->
        run = AuthProfile.mkRun [AuthProfile.graphql_url] [] (Throw m)).
Proof.
  cbv zeta. unfold AuthProfile.getUserProfile. split.
  - intros viewer ->.
    assert (Hid : AuthProfile.with_email viewer (p_email viewer) = viewer)
      by (destruct viewer; reflexivity).
    destruct (Js.truthy_opt (p_email viewer)) eqn:He.
    + repeat split; try discriminate.
      exists (p_email viewer). simpl. rewrite Hid. reflexivity.
    + destruct (user_emails token) as [m|  |entries] eqn:Hem.
      * repeat split; try discriminate.
        exists (p_email viewer). simpl. rewrite Hid. reflexivity.
      * repeat split; try discriminate.
        exists (p_email viewer). simpl. rewrite Hid. reflexivity.
      * destruct (find AuthProfile.e_primary entries) as [x|];
          repeat split; try discriminate.
        -- exists (AuthProfile.e_email x). reflexivity.
        -- exists (p_email viewer). simpl. rewrite Hid. reflexivity.
  - intros m [-> | ->]; reflexivity.
Qed.

Lemma profile_email_lookup_is_best_effort_witness :
  let viewer :=
    mkProfile (Some "Mona") (Some "octocat") None None None None None None in
  AuthProfile.result
    (AuthProfile.getUserProfile
       (fun _ => AuthProfile.GraphqlViewer viewer)
       (fun _ => AuthProfile.EmailsThrows "socket hang up") "T") = Ok viewer.
Proof.
  cbv zeta.
  destruct (profile_email_lookup_is_best_effort
              (fun _ => AuthProfile.GraphqlViewer
                          (mkProfile (Some "Mona") (Some "octocat") None None
                                     None None None None))
              (fun _ => AuthProfile.EmailsThrows "socket hang up") "T")
    as [H _].
  destruct (H _ eq_refl) as (_ & _ & _ & Hthrow).
  apply (Hthrow "socket hang up"); reflexivity.
Defined.

(** X19. For a viewer without an email, the email taken from the list of
    the email endpoint is that of the first entry marked primary; with no
    such entry the viewer stays without an email. *)
Theorem primary_email_is_first_primary
    (graphql : string -> AuthProfile.GraphqlOutcome)
    (user_emails : string -> AuthProfile.EmailsOutcome) (token : string)
    (viewer : Profile) (entries : list AuthProfile.EmailEntry) :
  graphql token = AuthProfile.GraphqlViewer viewer ->
  Js.truthy_opt (p_email viewer) = false ->
  user_emails token = AuthProfile.EmailsArray entries ->
  let run := AuthProfile.getUserProfile graphql user_emails token in
  (forall before x later,
     entries = (before ++ x :: later)%list ->
     Forall (fun e => AuthProfile.e_primary e = false) before ->
     AuthProfile.e_primary x = true ->
     AuthProfile.result run =
       Ok (AuthProfile.with_email viewer (AuthProfile.e_email x)))
  /\ (Forall (fun e => AuthProfile.e_primary e = false) entries ->
      AuthProfile.result run = Ok viewer).
Proof.
  intros Hg He Hem. cbv zeta. unfold AuthProfile.getUserProfile.
  rewrite Hg, He, Hem. clear Hem. split.
  - intros before x later -> Hb Hx.
    assert (Hf : find AuthProfile.e_primary (before ++ x :: later) = Some x).
    { induction Hb as [|b rest Hb0 _ IH]; simpl.
      - rewrite Hx. reflexivity.
      - rewrite Hb0. exact IH. }
    rewrite Hf. reflexivity.
  - intros Hall.
    assert (Hf : find AuthProfile.e_primary entries = None).
    { induction Hall as [|b rest Hb0 _ IH]; simpl; [reflexivity|].
      rewrite Hb0. exact IH. }
    rewrite Hf. reflexivity.
Qed.

Lemma primary_email_is_first_primary_witness :
  let viewer :=
    mkProfile (Some "Mona") (Some "octocat") None None None None None None in
  AuthProfile.result
    (AuthProfile.getUserProfile
       (fun _ => AuthProfile.GraphqlViewer viewer)
       (fun _ =>
          AuthProfile.EmailsArray
            [ AuthProfile.mkEmailEntry false (Some "old@example.com");
              AuthProfile.mkEmailEntry true (Some "mona@example.com");
              AuthProfile.mkEmailEntry true (Some "other@example.com") ])
       "T") =
    Ok (AuthProfile.with_email viewer (Some "mona@example.com")).
Proof.
  cbv zeta.
  destruct (primary_email_is_first_primary
              (fun _ => AuthProfile.GraphqlViewer
                          (mkProfile (Some "Mona") (Some "octocat") None None
                                     None None None None))
              (fun _ =>
                 AuthProfile.EmailsArray
                   [ AuthProfile.mkEmailEntry false (Some "old@example.com");
                     AuthProfile.mkEmailEntry true (Some "mona@example.com");
                     AuthProfile.mkEmailEntry true (Some "other@example.com") ])
              "T" _ _ eq_refl eq_refl eq_refl)
    as [H _].
  apply (H [AuthProfile.mkEmailEntry false (Some "old@example.com")]
           (AuthProfile.mkEmailEntry true (Some "mona@example.com"))
           [AuthProfile.mkEmailEntry true (Some "other@example.com")]).
  - reflexivity.
  - repeat constructor.
  - reflexivity.
Defined.

(** * Properties of the chat *)

Lemma strip_trailing_slash_added (b : string) :
  AIService.strip_trailing_slash (b ++ "/") = b.
Proof.
  induction b as [|c r IH]; [reflexivity|].
  destruct r as [|d r']; [reflexivity|].
  change (String c (String d r') ++ "/")
    with (String c (String d (r' ++ "/"))).
  change (AIService.strip_trailing_slash (String c (String d (r' ++ "/"))))
    with (String c (AIService.strip_trailing_slash (String d r' ++ "/"))).
  rewrite IH. reflexivity.
Qed.

Lemma strip_trailing_slash_none (b : string) :
  (forall x, b <> x ++ "/") -> AIService.strip_trailing_slash b = b.
Proof.
  induction b as [|c r IH]; [reflexivity|].
  intros H. destruct r as [|d r'].
  - simpl. destruct (Ascii.eqb_spec c "/") as [->|_]; [|reflexivity].
    exfalso. apply (H EmptyString). reflexivity.
  - change (AIService.strip_trailing_slash (String c (String d r')))
      with (String c (AIService.strip_trailing_slash (String d r'))).
    rewrite IH; [reflexivity|].
    intros x Hx. apply (H (String c x)). simpl. rewrite Hx. reflexivity.
Qed.

Lemma truthy_append_slash (b : string) : Js.truthy (b ++ "/") = true.
Proof. destruct b; reflexivity. Qed.

(** X20. With the service initialized and a key stored, a completion
    makes exactly one request, to the base address followed by
    [/chat/completions]: a base address given with one final slash and
    the same address given without it lead to the same request, with the
    stored key, the configured model and the prompt. *)
Theorem completion_endpoint
    (ai : AIService.AiEnv) (prompt key b : string) :
  AIService.initialized ai = true ->
  AIService.stored_key ai = Ok (Some key) -> Js.truthy key = true ->
  Js.truthy b = true -> (forall x, b <> x ++ "/") ->
  (AIService.baseUrl ai = Some b \/ AIService.baseUrl ai = Some (b ++ "/")) ->
  fst (AIService.getCompletion ai prompt) =
    [AIService.mkRequest (b ++ "/chat/completions") key
                         (AIService.model ai) prompt].
Proof.
  intros Hi Hk Hkt Hb Hns Hurl. unfold AIService.getCompletion.
  rewrite Hi, Hk. simpl. rewrite Hkt. simpl.
  destruct Hurl as [-> | ->]; simpl.
  - rewrite Hb. simpl. rewrite (strip_trailing_slash_none b Hns). reflexivity.
  - rewrite truthy_append_slash. simpl.
    rewrite strip_trailing_slash_added. reflexivity.
Qed.

Lemma completion_endpoint_witness :
  let ai :=
    AIService.mkAiEnv true (Ok (Some "sk-1")) (Some "https://api.example/v1/")
                      (Some "gpt-4o")
                      (fun _ => AIService.FetchJson None) in
  fst (AIService.getCompletion ai "rebase?") =
    [AIService.mkRequest "https://api.example/v1/chat/completions" "sk-1"
                         (Some "gpt-4o") "rebase?"].
Proof.
  cbv zeta.
  apply (completion_endpoint
           (AIService.mkAiEnv true (Ok (Some "sk-1"))
              (Some "https://api.example/v1/") (Some "gpt-4o")
              (fun _ => AIService.FetchJson None))
           "rebase?" "sk-1" "https://api.example/v1");
    try reflexivity.
  - intros x Hx.
    assert (Hs : AIService.strip_trailing_slash "https://api.example/v1" = x)
      by (rewrite Hx; apply strip_trailing_slash_added).
    vm_compute in Hs. subst x. discriminate Hx.
  - right. reflexivity.
Defined.

Lemma prefix_ai_error (e : string) :
  String.prefix "AI Error: " ("AI Error: " ++ e) = true.
Proof. simpl. destruct e; reflexivity. Qed.

(** X21. A completion makes at most one request and never retries.
    Without a request there is no answer: a service that is not
    initialized sends nothing and throws [AIService not initialized]; a
    secret store that fails on reading the key sends nothing and throws
    the store's error; a missing key or a missing base address make it
    throw before anything is sent, with a message of their own. Once the
    request is made, every failure is thrown with [AI Error: ] in front;
    for a response that is not ok the message goes on with
    [API Request Failed: ], the status, the status text and the body. *)
Theorem completion_errors (ai : AIService.AiEnv) (prompt : string) :
  let r := AIService.getCompletion ai prompt in
  List.length (fst r) <= 1
  /\ (fst r = [] -> exists e, snd r = Throw e)
  /\ (forall e, fst r <> [] -> snd r = Throw e ->
        String.prefix "AI Error: " e = true)
  /\ (forall req status statusText text,
        fst r = [req] ->
        AIService.fetch ai req = AIService.FetchNotOk status statusText text ->
        snd r =
          Throw ("AI Error: API Request Failed: " ++ AIService.decimal status
                   ++ " " ++ statusText ++ " - " ++ text))
  /\ (AIService.initialized ai = false ->
      r = ([], Throw "AIService not initialized"))
  /\ (AIService.initialized ai = true ->
      forall e, AIService.stored_key ai = Throw e -> r = ([], Throw e))
  /\ (AIService.initialized ai = true ->
      forall k, AIService.stored_key ai = Ok k ->
        (Js.truthy_opt k = false ->
         r = ([], Throw "API Key not set. Please run 'Git Helper: Set API Key' command."))
        /\ (Js.truthy_opt k = true ->
            Js.truthy_opt (AIService.baseUrl ai) = false ->
            r = ([], Throw "Base URL not configured."))).
Proof.
  cbv zeta. unfold AIService.getCompletion.
  destruct (AIService.initialized ai).
  2:{ simpl. repeat split; try lia; try discriminate; eauto;
      try (intros; congruence). }
  destruct (AIService.stored_key ai) as [k|e0].
  2:{ simpl. repeat split; try lia; try discriminate; eauto;
      try (intros; congruence). }
  destruct (Js.truthy_opt k) eqn:Hk.
  2:{ simpl. repeat split; try lia; try discriminate; eauto;
      try (intros; congruence);
      try (intros _ k' Hk'; injection Hk' as <-;
           split; [reflexivity|congruence]). }
  destruct (Js.truthy_opt (AIService.baseUrl ai)) eqn:Hb.
  2:{ simpl. repeat split; try lia; try discriminate; eauto;
      try (intros; congruence);
      try (intros _ k' Hk'; injection Hk' as <-;
           split; [congruence|reflexivity]). }
  simpl negb. cbv iota.
  set (req := AIService.mkRequest _ _ _ _).
  simpl fst. simpl snd.
  split; [simpl; lia|]. split; [discriminate|].
  split; [|split; [|split; [|split]]].
  - intros e _ He.
    destruct (AIService.fetch ai req) as [m|st stt tx|m|[[|[c|] l]|]];
      try discriminate He; injection He as <-; apply prefix_ai_error.
  - intros req' st stt tx Hreq Hf. injection Hreq as <-.
    rewrite Hf. reflexivity.
  - discriminate.
  - intros _ e He. discriminate He.
  - intros _ k' Hk'. injection Hk' as <-. split; congruence.
Qed.

Lemma completion_errors_witness :
  let ai :=
    AIService.mkAiEnv true (Ok (Some "sk-1")) (Some "https://api.example/v1")
                      None
                      (fun _ => AIService.FetchNotOk 404 "Not Found" "no route") in
  let off :=
    AIService.mkAiEnv false (Ok (Some "sk-1")) (Some "https://api.example/v1")
                      None (fun _ => AIService.FetchJson None) in
  snd (AIService.getCompletion ai "rebase?") =
    Throw "AI Error: API Request Failed: 404 Not Found - no route"
  /\ AIService.getCompletion off "rebase?" =
       ([], Throw "AIService not initialized").
Proof.
  cbv zeta. split.
  - destruct (completion_errors
                (AIService.mkAiEnv true (Ok (Some "sk-1"))
                   (Some "https://api.example/v1") None
                   (fun _ => AIService.FetchNotOk 404 "Not Found" "no route"))
                "rebase?")
      as (_ & _ & _ & H & _).
    exact (H _ 404 "Not Found" "no route" eq_refl eq_refl).
  - destruct (completion_errors
                (AIService.mkAiEnv false (Ok (Some "sk-1"))
                   (Some "https://api.example/v1") None
                   (fun _ => AIService.FetchJson None))
                "rebase?")
      as (_ & _ & _ & _ & H & _).
    exact (H eq_refl).
Defined.

(** X22. An empty chat query is dropped: no request, no message. Any
    other query makes the requests of one completion and, with a view,
    posts exactly two messages: first the query in the role [user], then
    the answer in the role [assistant], or, when the completion throws,
    [Error: ] and the error's message in the role [system]; the handler
    itself never throws. *)
Theorem chat_query_gets_one_reply
    (ai : AIService.AiEnv) (has_view : bool) (query : string) :
  (Js.truthy query = false ->
   AIService.handleChatQuery ai has_view query = ([], []))
  /\ (Js.truthy query = true ->
      fst (AIService.handleChatQuery ai has_view query) =
        fst (AIService.getCompletion ai query)
      /\ (has_view = false ->
          snd (AIService.handleChatQuery ai has_view query) = [])
      /\ (has_view = true ->
          exists reply,
            snd (AIService.handleChatQuery ai has_view query) =
              [AIService.mkChat "user" query; reply]
            /\ (forall a,
                  snd (AIService.getCompletion ai query) = Ok a ->
                  reply = AIService.mkChat "assistant" a)
            /\ (forall e,
                  snd (AIService.getCompletion ai query) = Throw e ->
                  reply = AIService.mkChat "system" ("Error: " ++ e)))).
Proof.
  unfold AIService.handleChatQuery. split.
  - intros ->. reflexivity.
  - intros ->. simpl negb. cbv iota.
    destruct (AIService.getCompletion ai query) as [reqs r].
    split; [reflexivity|]. split.
    + intros ->. reflexivity.
    + intros ->. eexists. split; [reflexivity|].
      split; [intros a Ha | intros e He]; simpl in *; subst r; reflexivity.
Qed.

Lemma chat_query_gets_one_reply_witness :
  AIService.handleChatQuery
    (AIService.mkAiEnv false (Ok None) None None
                       (fun _ => AIService.FetchJson None))
    true "rebase?" =
    ([], [ AIService.mkChat "user" "rebase?";
           AIService.mkChat "system" "Error: AIService not initialized" ]).
Proof.
  destruct (chat_query_gets_one_reply
              (AIService.mkAiEnv false (Ok None) None None
                                 (fun _ => AIService.FetchJson None))
              true "rebase?")
    as [_ H].
  destruct (H eq_refl) as (Hreq & _ & Hview).
  destruct (Hview eq_refl) as (reply & Hmsgs & _ & Herr).
  rewrite (Herr "AIService not initialized" eq_refl) in Hmsgs.
  destruct (AIService.handleChatQuery _ _ _) as [reqs msgs].
  simpl in Hreq, Hmsgs. subst reqs msgs. reflexivity.
Defined.

(** * What the dashboard never shows *)

Lemma repo_tail_nonempty (s g : string) :
  Js.repo_tail s = Some g -> Js.truthy g = true.
Proof.
  destruct s as [|c r]; simpl; [discriminate|].
  destruct (c =? "/")%char; [discriminate|].
  destruct ((r =? ".git") || (r =? EmptyString)).
  - intros H. injection H as <-. reflexivity.
  - destruct (Js.repo_tail r); simpl; [|discriminate].
    intros H. injection H as <-. reflexivity.
Qed.

Lemma repo_match_nonempty (s g : string) :
  Js.repo_match s = Some g -> Js.truthy g = true.
Proof.
  induction s as [|c r IH]; simpl; [discriminate|].
  destruct (c =? "/")%char; [|exact IH].
  destruct (Js.repo_tail r) as [g'|] eqn:E; [|exact IH].
  intros H. injection H as <-. exact (repo_tail_nonempty r g' E).
Qed.

(** X23. The repository name and the status are never empty texts, and
    asking for them never throws: whatever git prints or however it
    fails, and with or without a workspace folder, [getRepoName] and
    [getStatus] resolve with a non-empty text, after at most the one
    command each of them runs. *)
Theorem name_and_status_never_empty (env : Env) (w : World) :
  (exists name,
     GitService.getRepoName env w = (Ok name, after env [get_url_cmd] w)
     /\ Js.truthy name = true)
  /\ (exists status,
        GitService.getStatus env w = (Ok status, after env [status_cmd] w)
        /\ Js.truthy status = true).
Proof.
  split.
  - unfold GitService.getRepoName, after, try_catch, bind, GitService.exec.
    fold get_url_cmd.
    destruct (GitService.no_root env); [eexists; split; reflexivity|].
    assert (Hfolder :
              Js.truthy
                (match Js.pop (Js.split_path (GitService.root_string env)) with
                 | Some seg => if Js.truthy seg then seg else "Unknown"
                 | None => "Unknown"
                 end) = true).
    { destruct (Js.pop _) as [seg|]; [|reflexivity].
      destruct (Js.truthy seg) eqn:E; [exact E | reflexivity]. }
    destruct (cp_exec env (cmds w) get_url_cmd) as [out|e m]; simpl.
    + destruct (Js.repo_match (Js.trim out)) as [g|] eqn:E; simpl.
      * eexists. split; [reflexivity|]. exact (repo_match_nonempty _ _ E).
      * eexists. split; [reflexivity | exact Hfolder].
    + eexists. split; [reflexivity | exact Hfolder].
  - unfold GitService.getStatus, after, try_catch, bind, GitService.exec.
    fold status_cmd.
    destruct (GitService.no_root env); [eexists; split; reflexivity|].
    destruct (cp_exec env (cmds w) status_cmd) as [out|e m]; simpl.
    + destruct (Js.truthy (Js.trim out)) eqn:E;
        eexists; (split; [reflexivity|]); [exact E | reflexivity].
    + eexists. split; reflexivity.
Qed.

(** * The facade without a workspace folder *)

(** C9, amended. Without a workspace folder no facade operation runs a
    command or changes anything. The queries resolve with a sentinel:
    [No Repo] for the repository name, the status, the branch and the
    remote, [No workspace open] for the path, no branches, and
    [Failed to update remote URL] for the token update. The operations
    that change the repository throw [No workspace folder open]
    ([setRemote] wraps it as [Failed to set remote: ...]). The
    dispatcher catches that, so nothing is thrown across the dispatch
    boundary, and reports the failed action once: for a fast push and
    for every action that is one such operation the world is the old one
    plus the message [Git <action> failed: No workspace folder open],
    for set-remote plus
    [Git set-remote failed: Failed to set remote: No workspace folder open]. *)
Theorem no_workspace_behaviour
    (env : Env) (w : World) (s : string)
    (payload : option SidebarProvider.Payload) (action : string) :
  GitService.no_root env = true ->
  let nope : Res string * World := (Throw "No workspace folder open", w) in
  (GitService.getRepoName env w = (Ok "No Repo", w)
   /\ GitService.getStatus env w = (Ok "No Repo", w)
   /\ GitService.getCurrentBranch env w = (Ok "No Repo", w)
   /\ GitService.getRemote env w = (Ok "No Repo", w)
   /\ GitService.getRepoPath env w = (Ok "No workspace open", w)
   /\ GitService.getBranches env w = (Ok [], w)
   /\ GitService.updateRemoteUrlWithToken env s w =
        (Ok "Failed to update remote URL", w))
  /\ (GitService.commit env s w = nope
      /\ GitService.push env w = nope
      /\ GitService.pull env w = nope
      /\ GitService.fetch env w = nope
      /\ GitService.stash env w = nope
      /\ GitService.addAll env w = nope
      /\ GitService.createBranch env s w = nope
      /\ GitService.deleteBranch env s w = nope
      /\ GitService.switchBranch env s w = nope
      /\ GitService.mergeBranch env s w = nope
      /\ GitService.setRemote env s w =
           (Throw "Failed to set remote: No workspace folder open", w))
  /\ fst (SidebarProvider.handleGitAction env action payload w) = Ok tt
  /\ ((action = "fast-push"
       \/ exists c, single_command action payload = Some c) ->
      SidebarProvider.handleGitAction env action payload w =
        (Ok tt,
         emit (ErrorMessage
                 ("Git " ++ action ++ " failed: No workspace folder open"))
              w))
  /\ (forall u,
        action = "set-remote" ->
        SidebarProvider.field SidebarProvider.url payload = Some u ->
        SidebarProvider.handleGitAction env action payload w =
          (Ok tt,
           emit (ErrorMessage
                   "Git set-remote failed: Failed to set remote: No workspace folder open")
                w)).
Proof.
  intros Hroot. cbv zeta.
  split; [|split; [|split; [|split]]].
  - unfold GitService.getRepoName, GitService.getStatus,
      GitService.getCurrentBranch, GitService.getRemote,
      GitService.getRepoPath, GitService.getBranches,
      GitService.updateRemoteUrlWithToken, try_catch, bind.
    rewrite !(exec_no_root env _ _ Hroot). rewrite Hroot.
    unfold GitService.no_root in Hroot.
    apply negb_true_iff in Hroot. rewrite Hroot.
    repeat split.
  - unfold GitService.commit, GitService.push, GitService.pull,
      GitService.fetch, GitService.stash, GitService.addAll,
      GitService.createBranch, GitService.deleteBranch,
      GitService.switchBranch, GitService.mergeBranch,
      GitService.setRemote, try_catch, bind.
    rewrite !(exec_no_root env _ _ Hroot).
    repeat split.
  - unfold SidebarProvider.handleGitAction.
    destruct (SidebarProvider.dispatch env action payload w) as [[r|e] w1].
    + unfold bind, SidebarProvider.showInformationMessage, modify, spawn.
      reflexivity.
    + reflexivity.
  - intros [-> | [c Hc]]; apply handleGitAction_throw.
    + change (SidebarProvider.dispatch env "fast-push" payload w)
        with ((GitService.addAll env ;;;
               GitService.commit env "Fast Push: Auto-commit" ;;;
               GitService.push env) w).
      unfold bind, GitService.addAll.
      rewrite (exec_no_root env _ _ Hroot). reflexivity.
    + rewrite (dispatch_single_command env action c payload w Hc).
      apply (exec_no_root env _ _ Hroot).
  - intros u -> Hu.
    apply (handleGitAction_throw env "set-remote" payload w w
             "Failed to set remote: No workspace folder open").
    unfold SidebarProvider.dispatch. simpl. rewrite Hu.
    unfold GitService.setRemote, try_catch, bind.
    rewrite !(exec_no_root env _ _ Hroot). reflexivity.
Qed.

Lemma no_workspace_behaviour_witness :
  GitService.getStatus Sample.no_workspace Sample.w0 = (Ok "No Repo", Sample.w0)
  /\ GitService.stash Sample.no_workspace Sample.w0 =
       (Throw "No workspace folder open", Sample.w0)
  /\ SidebarProvider.handleGitAction Sample.no_workspace "stash" None
       Sample.w0 =
       (Ok tt,
        emit (ErrorMessage "Git stash failed: No workspace folder open")
             Sample.w0).
Proof.
  destruct (no_workspace_behaviour Sample.no_workspace Sample.w0 "x" None
              "stash" eq_refl)
    as ((_ & H1 & _) & (_ & _ & _ & _ & H2 & _) & _ & H3 & _).
  split; [exact H1|]. split; [exact H2|].
  apply H3. right. exists "git stash". reflexivity.
Defined.
